(** * Tag-side ranging state machine of the PolyPoint DW1000 firmware

    A shallow embedding of [software/firmware/dw1000_tag.c].  The globals of
    the translation unit become the fields of one record, every handler
    becomes a function on that record, and the calls into the radio driver
    are recorded, in program order, in a trace that is carried along with
    the state. *)

From Stdlib Require Import ZArith List Lia.
From stdpp Require Import base list option numbers.

Local Open Scope Z_scope.

(** ** Machine integers *)

Definition wrap8 (x : Z) : Z := x mod 2 ^ 8.
Definition wrap32 (x : Z) : Z := x mod 2 ^ 32.
Definition wrap64 (x : Z) : Z := x mod 2 ^ 64.

(** ** C arrays

    A C array is a list of fixed length.  Indexing outside of it is
    undefined behaviour, which the embedding reports as [None]. *)

Definition array_store {A : Type} (arr : list A) (i : Z) (v : A) : option (list A) :=
  if decide (0 <= i < Z.of_nat (length arr))
  then Some (<[Z.to_nat i := v]> arr)
  else None.

(** ** Constants of the headers

    [dw1000_tag.c] takes its constants from [dw1000.h], [firmware.h] and the
    DecaWave API headers.  They are kept abstract: every definition below is
    parametric in them. *)

Class firmware_constants := {
  NUM_RANGING_BROADCASTS : Z;
  NUM_RANGING_LISTENING_WINDOWS : Z;
  MAX_NUM_ANCHOR_RESPONSES : Z;
  RANGING_BROADCASTS_PERIOD_US : Z;
  RANGING_LISTENING_WINDOW_US : Z;
  RANGING_LISTENING_SLOT_US : Z;
  DW1000_TAG_MAX_RX_PKT_LEN : Z;
  MSG_TYPE_PP_NOSLOTS_TAG_POLL : Z;
  MSG_TYPE_PP_NOSLOTS_ANC_FINAL : Z;
  (* sizeof(struct pp_tag_poll) *)
  sizeof_pp_tag_poll : Z;
  (* the macro DW_DELAY_FROM_PKT_LEN(len) *)
  DW_DELAY_FROM_PKT_LEN : Z -> Z
}.

(** ** Data model *)

(** Modelled from the spec: the enumeration [tag_state_e] is declared in the
    absent [dw1000_tag.h]; the five enumerators are the ones the source
    names, in the order of the spec's RangingState
    (Idle, Broadcasting, AwaitingTransition, Listening, ComputingRanges). *)
Inductive tag_state_e :=
| TSTATE_IDLE
| TSTATE_BROADCASTS
| TSTATE_TRANSITION_TO_ANC_FINAL
| TSTATE_LISTENING
| TSTATE_CALCULATE_RANGE.

#[global] Instance tag_state_e_eq_dec : EqDecision tag_state_e.
Proof. solve_decision. Defined.

(** The event codes of [dwt_callback_data_t] that the source tests for; any
    other code of the DecaWave API is [DWT_SIG_OTHER]. *)
Inductive dwt_sig :=
| DWT_SIG_TX_DONE
| DWT_SIG_RX_OKAY
| DWT_SIG_RX_PHR_ERROR
| DWT_SIG_RX_ERROR
| DWT_SIG_RX_SYNCLOSS
| DWT_SIG_RX_SFDTIMEOUT
| DWT_SIG_RX_PTOTIMEOUT
| DWT_SIG_OTHER (code : Z).

#[global] Instance dwt_sig_eq_dec : EqDecision dwt_sig.
Proof. solve_decision. Defined.

Record dwt_callback_data_t := {
  event : dwt_sig;
  datalength : Z
}.

(** Modelled from the spec: [struct pp_tag_poll] is declared in the absent
    [dw1000.h].  The fields are the ones the initialiser of
    [pp_tag_poll_pkt] fills in; the constant header bytes are left out. *)
Record pp_tag_poll := {
  seqNum : Z;
  poll_message_type : Z;
  subsequence : Z;
  reply_after_subsequence : Z;
  anchor_reply_window_in_us : Z;
  anchor_reply_slot_time_in_us : Z
}.

(** Modelled from the spec: [struct pp_anc_final] is declared in the absent
    [dw1000.h].  This is the receive buffer seen through the cast
    [(struct pp_anc_final* ) buf]: the anchor's source address, the
    message-type byte, the time-of-arrival array and the anchor's 32-bit
    transmit time. *)
Record pp_anc_final := {
  sourceAddr : list Z;
  message_type : Z;
  TOAs : list Z;
  dw_time_sent : Z
}.

(** Modelled from the spec: [anchor_response_times_t] is declared in the
    absent [dw1000_tag.h]; its four fields are the ones the receive
    callback assigns. *)
Record anchor_response_times_t := {
  anchor_addr : list Z;
  tag_poll_TOAs : list Z;
  anc_final_tx_timestamp : Z;
  anc_final_rx_timestamp : Z
}.

(** The two functions that are handed to [timer_start]. *)
Inductive timer_task :=
| task_ranging_broadcast_subsequence
| task_ranging_listening_window.

(** What the trace records: the calls into the radio driver with their
    arguments, the (empty) range calculator being entered, and each store
    of a scheduled time into [_ranging_broadcast_ss_send_times]. *)
Inductive action :=
| Dwt_forcetrxoff
| Dwt_writetxfctrl (len offset : Z)
| Dwt_readsystimestamphi32
| Dwt_setdelayedtrxtime (starttime : Z)
| Dwt_writetxdata (len : Z) (pkt : pp_tag_poll) (offset : Z)
| Dwt_setrxaftertxdelay (us : Z)
| Dwt_starttx (delayed response_expected : bool)
| Dwt_settxantennadelay
| Dwt_readrxtimestamp
| Dwt_readrxdata (len offset : Z)
| Dw1000_set_ranging_broadcast_subsequence_settings (subseq_num : Z)
| Dw1000_set_ranging_listening_window_settings (window_num : Z)
| Enter_calculate_ranges
| Store_send_time (slot : Z) (time : Z).

(** The globals of [dw1000_tag.c].  [_ranging_broadcast_timer] holds the
    period and the callback of the running timer, [None] when it is
    stopped. *)
Record tag := {
  _tag_state : tag_state_e;
  _ranging_broadcast_ss_num : Z;
  _ranging_listening_window_num : Z;
  _ranging_broadcast_ss_send_times : list Z;
  _anchor_response_count : Z;
  _anchor_response_times : list anchor_response_times_t;
  pp_tag_poll_pkt : pp_tag_poll;
  _ranging_broadcast_timer : option (Z * timer_task);
  trace : list action
}.

(** *** Assignments to one global *)

Definition set_tag_state (v : tag_state_e) (s : tag) : tag :=
  {| _tag_state := v;
     _ranging_broadcast_ss_num := _ranging_broadcast_ss_num s;
     _ranging_listening_window_num := _ranging_listening_window_num s;
     _ranging_broadcast_ss_send_times := _ranging_broadcast_ss_send_times s;
     _anchor_response_count := _anchor_response_count s;
     _anchor_response_times := _anchor_response_times s;
     pp_tag_poll_pkt := pp_tag_poll_pkt s;
     _ranging_broadcast_timer := _ranging_broadcast_timer s;
     trace := trace s |}.

Definition set_ss_num (v : Z) (s : tag) : tag :=
  {| _tag_state := _tag_state s;
     _ranging_broadcast_ss_num := v;
     _ranging_listening_window_num := _ranging_listening_window_num s;
     _ranging_broadcast_ss_send_times := _ranging_broadcast_ss_send_times s;
     _anchor_response_count := _anchor_response_count s;
     _anchor_response_times := _anchor_response_times s;
     pp_tag_poll_pkt := pp_tag_poll_pkt s;
     _ranging_broadcast_timer := _ranging_broadcast_timer s;
     trace := trace s |}.

Definition set_window_num (v : Z) (s : tag) : tag :=
  {| _tag_state := _tag_state s;
     _ranging_broadcast_ss_num := _ranging_broadcast_ss_num s;
     _ranging_listening_window_num := v;
     _ranging_broadcast_ss_send_times := _ranging_broadcast_ss_send_times s;
     _anchor_response_count := _anchor_response_count s;
     _anchor_response_times := _anchor_response_times s;
     pp_tag_poll_pkt := pp_tag_poll_pkt s;
     _ranging_broadcast_timer := _ranging_broadcast_timer s;
     trace := trace s |}.

Definition set_send_times (v : list Z) (s : tag) : tag :=
  {| _tag_state := _tag_state s;
     _ranging_broadcast_ss_num := _ranging_broadcast_ss_num s;
     _ranging_listening_window_num := _ranging_listening_window_num s;
     _ranging_broadcast_ss_send_times := v;
     _anchor_response_count := _anchor_response_count s;
     _anchor_response_times := _anchor_response_times s;
     pp_tag_poll_pkt := pp_tag_poll_pkt s;
     _ranging_broadcast_timer := _ranging_broadcast_timer s;
     trace := trace s |}.

Definition set_response_count (v : Z) (s : tag) : tag :=
  {| _tag_state := _tag_state s;
     _ranging_broadcast_ss_num := _ranging_broadcast_ss_num s;
     _ranging_listening_window_num := _ranging_listening_window_num s;
     _ranging_broadcast_ss_send_times := _ranging_broadcast_ss_send_times s;
     _anchor_response_count := v;
     _anchor_response_times := _anchor_response_times s;
     pp_tag_poll_pkt := pp_tag_poll_pkt s;
     _ranging_broadcast_timer := _ranging_broadcast_timer s;
     trace := trace s |}.

Definition set_response_times (v : list anchor_response_times_t) (s : tag) : tag :=
  {| _tag_state := _tag_state s;
     _ranging_broadcast_ss_num := _ranging_broadcast_ss_num s;
     _ranging_listening_window_num := _ranging_listening_window_num s;
     _ranging_broadcast_ss_send_times := _ranging_broadcast_ss_send_times s;
     _anchor_response_count := _anchor_response_count s;
     _anchor_response_times := v;
     pp_tag_poll_pkt := pp_tag_poll_pkt s;
     _ranging_broadcast_timer := _ranging_broadcast_timer s;
     trace := trace s |}.

Definition set_poll_pkt (v : pp_tag_poll) (s : tag) : tag :=
  {| _tag_state := _tag_state s;
     _ranging_broadcast_ss_num := _ranging_broadcast_ss_num s;
     _ranging_listening_window_num := _ranging_listening_window_num s;
     _ranging_broadcast_ss_send_times := _ranging_broadcast_ss_send_times s;
     _anchor_response_count := _anchor_response_count s;
     _anchor_response_times := _anchor_response_times s;
     pp_tag_poll_pkt := v;
     _ranging_broadcast_timer := _ranging_broadcast_timer s;
     trace := trace s |}.

Definition set_timer (v : option (Z * timer_task)) (s : tag) : tag :=
  {| _tag_state := _tag_state s;
     _ranging_broadcast_ss_num := _ranging_broadcast_ss_num s;
     _ranging_listening_window_num := _ranging_listening_window_num s;
     _ranging_broadcast_ss_send_times := _ranging_broadcast_ss_send_times s;
     _anchor_response_count := _anchor_response_count s;
     _anchor_response_times := _anchor_response_times s;
     pp_tag_poll_pkt := pp_tag_poll_pkt s;
     _ranging_broadcast_timer := v;
     trace := trace s |}.

(** One more entry at the end of the trace. *)
Definition call (a : action) (s : tag) : tag :=
  {| _tag_state := _tag_state s;
     _ranging_broadcast_ss_num := _ranging_broadcast_ss_num s;
     _ranging_listening_window_num := _ranging_listening_window_num s;
     _ranging_broadcast_ss_send_times := _ranging_broadcast_ss_send_times s;
     _anchor_response_count := _anchor_response_count s;
     _anchor_response_times := _anchor_response_times s;
     pp_tag_poll_pkt := pp_tag_poll_pkt s;
     _ranging_broadcast_timer := _ranging_broadcast_timer s;
     trace := trace s ++ [a] |}.

(** ** The timer service *)

Definition timer_start (period : Z) (task : timer_task) (s : tag) : tag :=
  set_timer (Some (period, task)) s.

Definition timer_stop (s : tag) : tag := set_timer None s.

(** ** What the radio hands over on a receive

    [dwt_readrxtimestamp] and [dwt_readrxdata] fill the local buffer; the
    callback sees the timestamp through [DW_TIMESTAMP_TO_UINT64] and the
    frame through [struct pp_anc_final]. *)
Record rx_registers := {
  rx_timestamp : Z;
  rx_frame : pp_anc_final
}.

Section Firmware.

Context {C : firmware_constants}.

(** ** The handlers of [dw1000_tag.c] *)

(** [dw1000_tag_start_ranging_event]: the [memset] over
    [sizeof(_ranging_broadcast_ss_send_times)] zeroes every slot. *)
Definition dw1000_tag_start_ranging_event (s : tag) : tag :=
  let s := set_tag_state TSTATE_BROADCASTS s in
  let s := set_send_times
             (replicate (length (_ranging_broadcast_ss_send_times s)) 0) s in
  let s := set_ss_num 0 s in
  timer_start RANGING_BROADCASTS_PERIOD_US task_ranging_broadcast_subsequence s.

(** [dw1000_tag_txcallback] *)
Definition dw1000_tag_txcallback (data : dwt_callback_data_t) (s : tag) : tag :=
  match event data with
  | DWT_SIG_TX_DONE =>
      match _tag_state s with
      | TSTATE_TRANSITION_TO_ANC_FINAL =>
          let s := set_tag_state TSTATE_LISTENING s in
          let s := set_window_num 0 s in
          let s := set_response_count 0 s in
          timer_start RANGING_LISTENING_WINDOW_US task_ranging_listening_window s
      | _ => s
      end
  | _ => timer_stop s
  end.

(** The receive-error codes after which the callback reprograms the radio. *)
Definition rx_needs_reconfigure (e : dwt_sig) : bool :=
  match e with
  | DWT_SIG_RX_PHR_ERROR
  | DWT_SIG_RX_ERROR
  | DWT_SIG_RX_SYNCLOSS
  | DWT_SIG_RX_SFDTIMEOUT
  | DWT_SIG_RX_PTOTIMEOUT => true
  | _ => false
  end.

(** [dw1000_tag_rxcallback].  The two [memcpy]s and the two assignments all
    go to the slot [_anchor_response_count] and together fill its four
    fields, so they are one store of a whole record. *)
Definition dw1000_tag_rxcallback
    (rxd : dwt_callback_data_t) (rx : rx_registers) (s : tag) : option tag :=
  match event rxd with
  | DWT_SIG_RX_OKAY =>
      let s := call Dwt_readrxtimestamp s in
      let dw_rx_timestamp := rx_timestamp rx in
      let s := call (Dwt_readrxdata
                       (Z.min DW1000_TAG_MAX_RX_PKT_LEN (datalength rxd)) 0) s in
      let message_type := message_type (rx_frame rx) in
      if decide (message_type = MSG_TYPE_PP_NOSLOTS_ANC_FINAL) then
        if decide (_anchor_response_count s >= MAX_NUM_ANCHOR_RESPONSES) then
          Some s
        else
          let anc_final := rx_frame rx in
          times ← array_store (_anchor_response_times s) (_anchor_response_count s)
                    {| anchor_addr := sourceAddr anc_final;
                       tag_poll_TOAs := TOAs anc_final;
                       anc_final_tx_timestamp :=
                         wrap64 (Z.shiftl (dw_time_sent anc_final) 8);
                       anc_final_rx_timestamp := dw_rx_timestamp |};
          let s := set_response_times times s in
          Some (set_response_count (wrap8 (_anchor_response_count s + 1)) s)
      else
        Some s
  | e =>
      if rx_needs_reconfigure e then
        Some (call (Dw1000_set_ranging_listening_window_settings
                      (_ranging_listening_window_num s)) s)
      else
        Some s
  end.

(** The time programmed into the radio for a broadcast, from the value
    [dwt_readsystimestamphi32] returned: a 32-bit sum with bit 0 cleared. *)
Definition delay_time (systime_hi32 : Z) : Z :=
  Z.land (wrap32 (systime_hi32 + DW_DELAY_FROM_PKT_LEN sizeof_pp_tag_poll))
         0xFFFFFFFE.

(** [send_poll]; [systime_hi32] is what [dwt_readsystimestamphi32] returns. *)
Definition send_poll (systime_hi32 : Z) (s : tag) : option tag :=
  let tx_len := sizeof_pp_tag_poll in
  let pkt := pp_tag_poll_pkt s in
  let s := set_poll_pkt
             {| seqNum := wrap8 (seqNum pkt + 1);
                poll_message_type := poll_message_type pkt;
                subsequence := _ranging_broadcast_ss_num s;
                reply_after_subsequence := reply_after_subsequence pkt;
                anchor_reply_window_in_us := anchor_reply_window_in_us pkt;
                anchor_reply_slot_time_in_us := anchor_reply_slot_time_in_us pkt |}
             s in
  let s := call Dwt_forcetrxoff s in
  let s := call (Dwt_writetxfctrl tx_len 0) s in
  let s := call Dwt_readsystimestamphi32 s in
  let delay_time := delay_time systime_hi32 in
  let s := call (Dwt_setdelayedtrxtime delay_time) s in
  times ← array_store (_ranging_broadcast_ss_send_times s)
            (_ranging_broadcast_ss_num s) (wrap64 (Z.shiftl delay_time 8));
  let s := call (Store_send_time (_ranging_broadcast_ss_num s)
                                 (wrap64 (Z.shiftl delay_time 8)))
                (set_send_times times s) in
  let s := call (Dwt_writetxdata tx_len (pp_tag_poll_pkt s) 0) s in
  let s :=
    if decide (_ranging_broadcast_ss_num s = NUM_RANGING_BROADCASTS - 1) then
      let s := call (Dwt_setrxaftertxdelay 1) s in
      call (Dwt_starttx true true) s
    else
      call (Dwt_starttx true false) s in
  Some (call Dwt_settxantennadelay s).

(** [ranging_broadcast_subsequence_task] *)
Definition ranging_broadcast_subsequence_task (systime_hi32 : Z) (s : tag)
    : option tag :=
  let s :=
    if decide (_ranging_broadcast_ss_num s = NUM_RANGING_BROADCASTS - 1)
    then timer_stop s else s in
  let s := call (Dw1000_set_ranging_broadcast_subsequence_settings
                   (_ranging_broadcast_ss_num s)) s in
  s ← send_poll systime_hi32 s;
  Some (set_ss_num (wrap8 (_ranging_broadcast_ss_num s + 1)) s).

(** [calculate_ranges]: the body is empty; entering it is recorded. *)
Definition calculate_ranges (s : tag) : tag := call Enter_calculate_ranges s.

(** [ranging_listening_window_task] *)
Definition ranging_listening_window_task (s : tag) : tag :=
  if decide (_ranging_listening_window_num s = NUM_RANGING_LISTENING_WINDOWS) then
    let s := timer_stop s in
    let s := call Dwt_forcetrxoff s in
    let s := set_tag_state TSTATE_CALCULATE_RANGE s in
    calculate_ranges s
  else
    let s := call (Dw1000_set_ranging_listening_window_settings
                     (_ranging_listening_window_num s)) s in
    set_window_num (wrap8 (_ranging_listening_window_num s + 1)) s.

(** ** The firmware as a machine driven from outside

    The entry point and the two radio callbacks are called by the
    surrounding firmware; a fire of the timer runs the callback the timer
    was last started with, and nothing when the timer is stopped.  A timer
    fire carries the clock value the radio would report. *)
Inductive input :=
| StartRangingEvent
| TxCallback (data : dwt_callback_data_t)
| RxCallback (rxd : dwt_callback_data_t) (rx : rx_registers)
| TimerFire (systime_hi32 : Z).

Definition timer_fire (systime_hi32 : Z) (s : tag) : option tag :=
  match _ranging_broadcast_timer s with
  | None => Some s
  | Some (_, task_ranging_broadcast_subsequence) =>
      ranging_broadcast_subsequence_task systime_hi32 s
  | Some (_, task_ranging_listening_window) =>
      Some (ranging_listening_window_task s)
  end.

Definition step (i : input) (s : tag) : option tag :=
  match i with
  | StartRangingEvent => Some (dw1000_tag_start_ranging_event s)
  | TxCallback data => Some (dw1000_tag_txcallback data s)
  | RxCallback rxd rx => dw1000_tag_rxcallback rxd rx s
  | TimerFire t => timer_fire t s
  end.

Fixpoint run (ins : list input) (s : tag) : option tag :=
  match ins with
  | [] => Some s
  | i :: ins => s' ← step i s; run ins s'
  end.

(** The state after [dw1000_tag_init]: the statics hold their
    initialisers, the arrays have their declared lengths and the timer
    exists but is not running.  The trace starts here, after the driver
    calls of the initialisation. *)
Definition zero_response : anchor_response_times_t :=
  {| anchor_addr := replicate 8 0;
     tag_poll_TOAs := replicate (Z.to_nat NUM_RANGING_BROADCASTS) 0;
     anc_final_tx_timestamp := 0;
     anc_final_rx_timestamp := 0 |}.

Definition tag_boot : tag :=
  {| _tag_state := TSTATE_IDLE;
     _ranging_broadcast_ss_num := 0;
     _ranging_listening_window_num := 0;
     _ranging_broadcast_ss_send_times :=
       replicate (Z.to_nat NUM_RANGING_BROADCASTS) 0;
     _anchor_response_count := 0;
     _anchor_response_times :=
       replicate (Z.to_nat MAX_NUM_ANCHOR_RESPONSES) zero_response;
     pp_tag_poll_pkt :=
       {| seqNum := 0;
          poll_message_type := MSG_TYPE_PP_NOSLOTS_TAG_POLL;
          subsequence := 0;
          reply_after_subsequence := NUM_RANGING_BROADCASTS - 1;
          anchor_reply_window_in_us := RANGING_LISTENING_WINDOW_US;
          anchor_reply_slot_time_in_us := RANGING_LISTENING_SLOT_US |};
     _ranging_broadcast_timer := None;
     trace := [] |}.

(** The declared shape of the globals: array lengths and 8-bit counters. *)
Record well_formed (s : tag) : Prop := {
  wf_send_times :
    length (_ranging_broadcast_ss_send_times s) = Z.to_nat NUM_RANGING_BROADCASTS;
  wf_response_times :
    length (_anchor_response_times s) = Z.to_nat MAX_NUM_ANCHOR_RESPONSES;
  wf_ss_num : 0 <= _ranging_broadcast_ss_num s < 256;
  wf_window_num : 0 <= _ranging_listening_window_num s < 256;
  wf_response_count : 0 <= _anchor_response_count s < 256
}.

End Firmware.

(** A small instance of the constants, for running the machine. *)
Definition small_constants : firmware_constants :=
  {| NUM_RANGING_BROADCASTS := 3;
     NUM_RANGING_LISTENING_WINDOWS := 2;
     MAX_NUM_ANCHOR_RESPONSES := 2;
     RANGING_BROADCASTS_PERIOD_US := 2000;
     RANGING_LISTENING_WINDOW_US := 10000;
     RANGING_LISTENING_SLOT_US := 1000;
     DW1000_TAG_MAX_RX_PKT_LEN := 64;
     MSG_TYPE_PP_NOSLOTS_TAG_POLL := 0x80;
     MSG_TYPE_PP_NOSLOTS_ANC_FINAL := 0x81;
     sizeof_pp_tag_poll := 22;
     DW_DELAY_FROM_PKT_LEN := fun len => 1000 + 10 * len |}.

(** * Vocabulary of the properties *)

Section Vocabulary.

Context {C : firmware_constants}.

(** The record the callback builds from a received ANC_FINAL frame. *)
Definition response_of (rx : rx_registers) : anchor_response_times_t :=
  {| anchor_addr := sourceAddr (rx_frame rx);
     tag_poll_TOAs := TOAs (rx_frame rx);
     anc_final_tx_timestamp := wrap64 (Z.shiftl (dw_time_sent (rx_frame rx)) 8);
     anc_final_rx_timestamp := rx_timestamp rx |}.

(** The two driver reads every successful receive starts with. *)
Definition rx_reads (rxd : dwt_callback_data_t) (s : tag) : tag :=
  call (Dwt_readrxdata (Z.min DW1000_TAG_MAX_RX_PKT_LEN (datalength rxd)) 0)
       (call Dwt_readrxtimestamp s).

(** The part of the shape that the receive callback relies on, together
    with the bound on the response count. *)
Definition responses_bounded (s : tag) : Prop :=
  length (_anchor_response_times s) = Z.to_nat MAX_NUM_ANCHOR_RESPONSES ∧
  0 <= _anchor_response_count s <= MAX_NUM_ANCHOR_RESPONSES.

(** Inputs that are receive callbacks. *)
Definition is_rx_callback (i : input) : Prop :=
  match i with RxCallback _ _ => True | _ => False end.

(** The five receive faults the callback recovers from. *)
Definition receive_errors : list dwt_sig :=
  [DWT_SIG_RX_PHR_ERROR; DWT_SIG_RX_ERROR; DWT_SIG_RX_SYNCLOSS;
   DWT_SIG_RX_SFDTIMEOUT; DWT_SIG_RX_PTOTIMEOUT].

(** The 64-bit value stored for a broadcast whose clock reading was [t]. *)
Definition scheduled_send_time (t : Z) : Z :=
  Z.shiftl
    (Z.land (wrap32 (t + DW_DELAY_FROM_PKT_LEN sizeof_pp_tag_poll)) 0xFFFFFFFE) 8.

(** The trace entries that matter for the order of broadcasts: the stores
    into the send-time array and the starts of a transmission. *)
Definition is_store_or_starttx (a : action) : bool :=
  match a with
  | Store_send_time _ _ | Dwt_starttx _ _ => true
  | _ => false
  end.

Definition stores_and_starts (tr : list action) : list action :=
  List.filter is_store_or_starttx tr.

(** What a run of broadcasts leaves among the stores and transmission
    starts of the trace: slot after slot, the store first. *)
Fixpoint broadcast_marks (slot : Z) (ts : list Z) : list action :=
  match ts with
  | [] => []
  | t :: ts =>
      Store_send_time slot (scheduled_send_time t)
        :: Dwt_starttx true (bool_decide (slot = NUM_RANGING_BROADCASTS - 1))
        :: broadcast_marks (slot + 1) ts
  end.

(** Clock readings taken at least two ticks apart. *)
Definition spaced (ts : list Z) : Prop :=
  ∀ (i : nat) (a b : Z), ts !! i = Some a -> ts !! S i = Some b -> a + 2 <= b.

(** An input that makes the timer run the subsequence task. *)
Definition runs_subsequence_task (i : input) (s : tag) : Prop :=
  ∃ t p, i = TimerFire t ∧
         _ranging_broadcast_timer s = Some (p, task_ranging_broadcast_subsequence).

(** What holds of every state the machine reaches: the globals have their
    declared shape, the response count is within the array, and while the
    timer runs the subsequence task the subsequence index is within the
    send-time array. *)
Definition machine_invariant (s : tag) : Prop :=
  well_formed s ∧
  _anchor_response_count s <= MAX_NUM_ANCHOR_RESPONSES ∧
  ∀ p, _ranging_broadcast_timer s = Some (p, task_ranging_broadcast_subsequence) ->
       _ranging_broadcast_ss_num s < NUM_RANGING_BROADCASTS.

End Vocabulary.

(** ** Concrete inputs and the claims they are run against *)

Definition tx_done : dwt_callback_data_t :=
  {| event := DWT_SIG_TX_DONE; datalength := 0 |}.

Definition rx_okay : dwt_callback_data_t :=
  {| event := DWT_SIG_RX_OKAY; datalength := 40 |}.

Definition anchor_frame (id : Z) : rx_registers :=
  {| rx_timestamp := 987654321;
     rx_frame := {| sourceAddr := [id; 0; 0; 0; 0; 0; 0; 0];
                    message_type := 0x81;
                    TOAs := [100; 200; 300];
                    dw_time_sent := 5000 |} |}.

(** The entries of a trace that enter the range calculator. *)
Definition calculator_calls (tr : list action) : nat :=
  length (List.filter
            (λ a, match a with Enter_calculate_ranges => true | _ => false end)
            tr).

(** The full event as C1 words it: Idle to Broadcasting on start, to
    Listening on the transmit callback of the last of three broadcasts,
    and to the range calculation after two fires of the window timer, with
    the calculator entered once. *)
Definition claimed_full_event {C : firmware_constants}
    (s : tag) (a0 a1 a2 w0 w1 : Z) : Prop :=
  ∃ b l c,
    step StartRangingEvent s = Some b ∧
    _tag_state b = TSTATE_BROADCASTS ∧
    run [TimerFire a0; TxCallback tx_done;
         TimerFire a1; TxCallback tx_done;
         TimerFire a2; TxCallback tx_done] b = Some l ∧
    _tag_state l = TSTATE_LISTENING ∧
    _ranging_listening_window_num l = 0 ∧
    _anchor_response_count l = 0 ∧
    _ranging_broadcast_timer l =
      Some (RANGING_LISTENING_WINDOW_US, task_ranging_listening_window) ∧
    run [TimerFire w0; TimerFire w1] l = Some c ∧
    _tag_state c = TSTATE_CALCULATE_RANGE ∧
    calculator_calls (trace c) = 1%nat.


(** Event data as C2 wants it after a start: send times, response count and
    response records all cleared. *)
Definition event_data_cleared {C : firmware_constants} (s : tag) : Prop :=
  Forall (λ t, t = 0) (_ranging_broadcast_ss_send_times s) ∧
  _anchor_response_count s = 0 ∧
  Forall (λ r, r = zero_response) (_anchor_response_times s).

(** * Vocabulary of the further properties *)

Section MoreVocabulary.

Context {C : firmware_constants}.

(** [pp_tag_poll_pkt] after [send_poll] has re-stamped it for one more
    broadcast: the sequence number advanced, the subsequence set. *)
Definition stamp (pkt : pp_tag_poll) (subseq : Z) : pp_tag_poll :=
  {| seqNum := wrap8 (seqNum pkt + 1);
     poll_message_type := poll_message_type pkt;
     subsequence := subseq;
     reply_after_subsequence := reply_after_subsequence pkt;
     anchor_reply_window_in_us := anchor_reply_window_in_us pkt;
     anchor_reply_slot_time_in_us := anchor_reply_slot_time_in_us pkt |}.

(** Everything one run of the subsequence task adds to the trace, for the
    slot [slot], the clock reading [t] and the packet [pkt] that goes out. *)
Definition broadcast_calls (slot t : Z) (pkt : pp_tag_poll) : list action :=
  [Dw1000_set_ranging_broadcast_subsequence_settings slot;
   Dwt_forcetrxoff;
   Dwt_writetxfctrl sizeof_pp_tag_poll 0;
   Dwt_readsystimestamphi32;
   Dwt_setdelayedtrxtime (delay_time t);
   Store_send_time slot (scheduled_send_time t);
   Dwt_writetxdata sizeof_pp_tag_poll pkt 0]
  ++ (if decide (slot = NUM_RANGING_BROADCASTS - 1)
      then [Dwt_setrxaftertxdelay 1; Dwt_starttx true true]
      else [Dwt_starttx true false])
  ++ [Dwt_settxantennadelay].

(** The packets handed to [dwt_writetxdata], oldest first. *)
Fixpoint written_packets (tr : list action) : list pp_tag_poll :=
  match tr with
  | [] => []
  | Dwt_writetxdata _ pkt _ :: tr => pkt :: written_packets tr
  | _ :: tr => written_packets tr
  end.

(** The packets of successive broadcasts, starting from the template
    [pkt] and the slot [slot]; one per clock reading. *)
Fixpoint stamped_packets (pkt : pp_tag_poll) (slot : Z) (ts : list Z)
    : list pp_tag_poll :=
  match ts with
  | [] => []
  | _ :: ts => stamp pkt slot :: stamped_packets (stamp pkt slot) (slot + 1) ts
  end.

(** The template after those broadcasts. *)
Fixpoint final_packet (pkt : pp_tag_poll) (slot : Z) (ts : list Z) : pp_tag_poll :=
  match ts with
  | [] => pkt
  | _ :: ts => final_packet (stamp pkt slot) (slot + 1) ts
  end.

(** Everything a run of broadcasts adds to the trace. *)
Fixpoint broadcast_run_calls (pkt : pp_tag_poll) (slot : Z) (ts : list Z)
    : list action :=
  match ts with
  | [] => []
  | t :: ts =>
      broadcast_calls slot t (stamp pkt slot)
        ++ broadcast_run_calls (stamp pkt slot) (slot + 1) ts
  end.

(** The calls the listening-window task makes for the windows
    [first], ..., [first + n - 1]. *)
Definition window_settings_calls (first n : Z) : list action :=
  Dw1000_set_ranging_listening_window_settings <$> seqZ first n.

(** The machine has not got past the broadcasts: it is Idle or
    Broadcasting, the window index is untouched, the timer does not run
    the listening-window task and the range calculator has not been
    entered. *)
Definition before_listening (s : tag) : Prop :=
  (_tag_state s = TSTATE_IDLE ∨ _tag_state s = TSTATE_BROADCASTS) ∧
  _ranging_listening_window_num s = 0 ∧
  (∀ p, _ranging_broadcast_timer s ≠ Some (p, task_ranging_listening_window)) ∧
  calculator_calls (trace s) = 0%nat.

(** [s2] has kept every response [s1] had collected. *)
Definition keeps_responses (s1 s2 : tag) : Prop :=
  _anchor_response_count s1 <= _anchor_response_count s2 ∧
  take (Z.to_nat (_anchor_response_count s1)) (_anchor_response_times s2) =
    take (Z.to_nat (_anchor_response_count s1)) (_anchor_response_times s1).

(** Nothing has been sent and nothing is scheduled. *)
Definition quiet (s : tag) : Prop :=
  _tag_state s = TSTATE_IDLE ∧
  _ranging_broadcast_timer s = None ∧
  _ranging_broadcast_ss_num s = 0 ∧
  Forall (λ t, t = 0) (_ranging_broadcast_ss_send_times s) ∧
  stores_and_starts (trace s) = [].

(** The shape of a stored send time: a multiple of 2^9 below 2^40. *)
Definition send_time_shaped (v : Z) : Prop :=
  0 <= v < 2 ^ 40 ∧ v mod 512 = 0.

(** The fields of the poll packet that no handler writes. *)
Definition poll_constants (pkt : pp_tag_poll) : Prop :=
  poll_message_type pkt = MSG_TYPE_PP_NOSLOTS_TAG_POLL ∧
  reply_after_subsequence pkt = NUM_RANGING_BROADCASTS - 1 ∧
  anchor_reply_window_in_us pkt = RANGING_LISTENING_WINDOW_US ∧
  anchor_reply_slot_time_in_us pkt = RANGING_LISTENING_SLOT_US.

(** What holds of every entry of a trace that starts at boot: a packet
    written to the radio has the length of the poll packet, offset 0 and
    the constant fields of the template; a transmission is a delayed one;
    a store into the send-time array has the shape of a send time. *)
Definition action_in_order (a : action) : Prop :=
  match a with
  | Dwt_writetxdata len pkt offset =>
      len = sizeof_pp_tag_poll ∧ offset = 0 ∧ poll_constants pkt
  | Dwt_writetxfctrl len offset => len = sizeof_pp_tag_poll ∧ offset = 0
  | Dwt_starttx delayed _ => delayed = true
  | Store_send_time _ v => send_time_shaped v
  | _ => True
  end.

(** The three facts that are kept from boot on; they are kept together
    since each step needs the first to re-establish the second. *)
Definition in_order (s : tag) : Prop :=
  poll_constants (pp_tag_poll_pkt s) ∧
  Forall action_in_order (trace s) ∧
  Forall send_time_shaped (_ranging_broadcast_ss_send_times s).

(** Inputs other than receive callbacks. *)
Definition not_rx_callback (i : input) : bool :=
  match i with RxCallback _ _ => false | _ => true end.

(** Two states that differ at most in what the receive callback writes:
    the response count, the response records and its own driver calls in
    the trace. *)
Definition same_broadcast_side (s1 s2 : tag) : Prop :=
  _tag_state s1 = _tag_state s2 ∧
  _ranging_broadcast_ss_num s1 = _ranging_broadcast_ss_num s2 ∧
  _ranging_listening_window_num s1 = _ranging_listening_window_num s2 ∧
  _ranging_broadcast_ss_send_times s1 = _ranging_broadcast_ss_send_times s2 ∧
  pp_tag_poll_pkt s1 = pp_tag_poll_pkt s2 ∧
  _ranging_broadcast_timer s1 = _ranging_broadcast_timer s2 ∧
  stores_and_starts (trace s1) = stores_and_starts (trace s2) ∧
  written_packets (trace s1) = written_packets (trace s2) ∧
  calculator_calls (trace s1) = calculator_calls (trace s2).

(** A receive callback that reports a good ANC_FINAL frame. *)
Definition good_anc_final (p : dwt_callback_data_t * rx_registers) : Prop :=
  event p.1 = DWT_SIG_RX_OKAY ∧
  message_type (rx_frame p.2) = MSG_TYPE_PP_NOSLOTS_ANC_FINAL.

Definition rx_input (p : dwt_callback_data_t * rx_registers) : input :=
  RxCallback p.1 p.2.

(** The inputs of a listening phase: fires of the window timer and good
    ANC_FINAL frames. *)
Definition listening_input (i : input) : Prop :=
  match i with
  | TimerFire _ => True
  | RxCallback rxd rx => good_anc_final (rxd, rx)
  | _ => False
  end.

(** The frames among the inputs, and the clock values of the timer fires,
    in order. *)
Fixpoint received_frames (ins : list input)
    : list (dwt_callback_data_t * rx_registers) :=
  match ins with
  | [] => []
  | RxCallback rxd rx :: ins => (rxd, rx) :: received_frames ins
  | _ :: ins => received_frames ins
  end.

Fixpoint fire_times (ins : list input) : list Z :=
  match ins with
  | [] => []
  | TimerFire t :: ins => t :: fire_times ins
  | _ :: ins => fire_times ins
  end.

(** Two states with the same collection of responses. *)
Definition same_responses (s1 s2 : tag) : Prop :=
  _anchor_response_count s1 = _anchor_response_count s2 ∧
  _anchor_response_times s1 = _anchor_response_times s2.

End MoreVocabulary.

(** ** More concrete inputs *)

(** Constants beyond what the 8-bit counters can count. *)
Definition wide_constants : firmware_constants :=
  {| NUM_RANGING_BROADCASTS := 300;
     NUM_RANGING_LISTENING_WINDOWS := 300;
     MAX_NUM_ANCHOR_RESPONSES := 300;
     RANGING_BROADCASTS_PERIOD_US := 2000;
     RANGING_LISTENING_WINDOW_US := 10000;
     RANGING_LISTENING_SLOT_US := 1000;
     DW1000_TAG_MAX_RX_PKT_LEN := 64;
     MSG_TYPE_PP_NOSLOTS_TAG_POLL := 0x80;
     MSG_TYPE_PP_NOSLOTS_ANC_FINAL := 0x81;
     sizeof_pp_tag_poll := 22;
     DW_DELAY_FROM_PKT_LEN := fun len => 1000 + 10 * len |}.

Definition rx_sync_loss : dwt_callback_data_t :=
  {| event := DWT_SIG_RX_SYNCLOSS; datalength := 0 |}.

Definition tx_failed : dwt_callback_data_t :=
  {| event := DWT_SIG_OTHER 13; datalength := 0 |}.

(** One event with responses and an error in between, and the start of
    the next. *)
Definition busy_inputs : list input :=
  [StartRangingEvent;
   TimerFire 100; TxCallback tx_done;
   RxCallback rx_okay (anchor_frame 7);
   TimerFire 5000; TxCallback tx_done;
   TimerFire 10000; TxCallback tx_done;
   RxCallback rx_okay (anchor_frame 8);
   RxCallback rx_sync_loss (anchor_frame 0);
   RxCallback rx_okay (anchor_frame 9);
   TimerFire 12000;
   StartRangingEvent;
   TimerFire 20000].

(** What can arrive before the first start. *)
Definition idle_inputs : list input :=
  [TimerFire 100;
   TxCallback tx_done;
   RxCallback rx_okay (anchor_frame 7);
   TxCallback tx_failed;
   RxCallback rx_sync_loss (anchor_frame 0);
   TimerFire 200].

(** * Properties *)

Section Properties.

Context {C : firmware_constants}.

(** ** Arrays *)

Lemma array_store_in_range {A : Type} (arr : list A) (i : Z) (v : A) :
  0 <= i < Z.of_nat (length arr) ->
  array_store arr i v = Some (<[Z.to_nat i := v]> arr).
Proof. intros Hi. unfold array_store. by rewrite decide_True. Qed.

Lemma array_store_out_of_range {A : Type} (arr : list A) (i : Z) (v : A) :
  ¬ (0 <= i < Z.of_nat (length arr)) -> array_store arr i v = None.
Proof. intros Hi. unfold array_store. by rewrite decide_False. Qed.

Lemma send_poll_outside_array t s :
  ¬ (0 <= _ranging_broadcast_ss_num s
       < Z.of_nat (length (_ranging_broadcast_ss_send_times s))) ->
  send_poll t s = None.
Proof.
  intros Hi. unfold send_poll.
  cbn [call set_poll_pkt _ranging_broadcast_ss_send_times _ranging_broadcast_ss_num].
  by rewrite array_store_out_of_range.
Qed.

Lemma array_store_length {A : Type} (arr arr' : list A) (i : Z) (v : A) :
  array_store arr i v = Some arr' -> length arr' = length arr.
Proof.
  unfold array_store. case_decide; [|done].
  intros [= <-]. apply length_insert.
Qed.

Lemma array_store_lookup {A : Type} (arr arr' : list A) (i : Z) (v : A) :
  array_store arr i v = Some arr' -> arr' !! Z.to_nat i = Some v.
Proof.
  unfold array_store. case_decide as Hi; [|done].
  intros [= <-]. apply list_lookup_insert_eq. lia.
Qed.

(** ** Machine integers *)

Lemma wrap8_range x : 0 <= wrap8 x < 256.
Proof. unfold wrap8. change (2 ^ 8) with 256. apply Z.mod_pos_bound. lia. Qed.

Lemma wrap8_small x : 0 <= x < 256 -> wrap8 x = x.
Proof. intros Hx. unfold wrap8. change (2 ^ 8) with 256. by apply Z.mod_small. Qed.

Lemma wrap8_succ_le x : 0 <= x -> wrap8 (x + 1) <= x + 1.
Proof.
  intros Hx. unfold wrap8. change (2 ^ 8) with 256.
  apply Z.mod_le; lia.
Qed.

(** ** The receive callback *)

Lemma rxcallback_other_type rxd rx s :
  event rxd = DWT_SIG_RX_OKAY ->
  message_type (rx_frame rx) ≠ MSG_TYPE_PP_NOSLOTS_ANC_FINAL ->
  dw1000_tag_rxcallback rxd rx s = Some (rx_reads rxd s).
Proof.
  intros He Hm. unfold dw1000_tag_rxcallback. rewrite He.
  by rewrite decide_False.
Qed.

Lemma rxcallback_full rxd rx s :
  event rxd = DWT_SIG_RX_OKAY ->
  message_type (rx_frame rx) = MSG_TYPE_PP_NOSLOTS_ANC_FINAL ->
  _anchor_response_count s >= MAX_NUM_ANCHOR_RESPONSES ->
  dw1000_tag_rxcallback rxd rx s = Some (rx_reads rxd s).
Proof.
  intros He Hm Hfull. unfold dw1000_tag_rxcallback. rewrite He.
  rewrite decide_True by done. cbn [_anchor_response_count call].
  by rewrite decide_True.
Qed.

Lemma rxcallback_append rxd rx s :
  event rxd = DWT_SIG_RX_OKAY ->
  message_type (rx_frame rx) = MSG_TYPE_PP_NOSLOTS_ANC_FINAL ->
  0 <= _anchor_response_count s < MAX_NUM_ANCHOR_RESPONSES ->
  length (_anchor_response_times s) = Z.to_nat MAX_NUM_ANCHOR_RESPONSES ->
  dw1000_tag_rxcallback rxd rx s =
    Some (set_response_count (wrap8 (_anchor_response_count s + 1))
            (set_response_times
               (<[Z.to_nat (_anchor_response_count s) := response_of rx]>
                  (_anchor_response_times s))
               (rx_reads rxd s))).
Proof.
  intros He Hm Hroom Hlen. unfold dw1000_tag_rxcallback. rewrite He.
  rewrite decide_True by done. cbn [_anchor_response_count _anchor_response_times call].
  rewrite decide_False by lia.
  rewrite array_store_in_range by lia. done.
Qed.

Lemma rxcallback_error rxd rx s :
  rx_needs_reconfigure (event rxd) = true ->
  dw1000_tag_rxcallback rxd rx s =
    Some (call (Dw1000_set_ranging_listening_window_settings
                  (_ranging_listening_window_num s)) s).
Proof.
  intros He. unfold dw1000_tag_rxcallback.
  destruct (event rxd); try discriminate He; done.
Qed.

Lemma rxcallback_other_event rxd rx s :
  event rxd ≠ DWT_SIG_RX_OKAY ->
  rx_needs_reconfigure (event rxd) = false ->
  dw1000_tag_rxcallback rxd rx s = Some s.
Proof.
  intros Hne He. unfold dw1000_tag_rxcallback.
  destruct (event rxd); try discriminate He; done.
Qed.

Lemma rxcallback_bounded rxd rx s :
  responses_bounded s ->
  ∃ s', dw1000_tag_rxcallback rxd rx s = Some s' ∧ responses_bounded s'.
Proof.
  intros [Hlen Hcnt].
  destruct (decide (event rxd = DWT_SIG_RX_OKAY)) as [He|He].
  - destruct (decide (message_type (rx_frame rx) = MSG_TYPE_PP_NOSLOTS_ANC_FINAL))
      as [Hm|Hm].
    + destruct (decide (_anchor_response_count s >= MAX_NUM_ANCHOR_RESPONSES))
        as [Hfull|Hroom].
      * eexists. split; [by apply rxcallback_full|]. by split.
      * eexists. split; [apply rxcallback_append; [done|done|lia|done]|].
        split; cbn.
        -- by rewrite length_insert.
        -- pose proof (wrap8_range (_anchor_response_count s + 1)).
           pose proof (wrap8_succ_le (_anchor_response_count s)). lia.
    + eexists. split; [by apply rxcallback_other_type|]. by split.
  - destruct (rx_needs_reconfigure (event rxd)) eqn:Hr.
    + eexists. split; [by apply rxcallback_error|]. by split.
    + eexists. split; [by apply rxcallback_other_event|]. by split.
Qed.

Lemma run_rx_callbacks_bounded (ins : list input) (s : tag) :
  Forall is_rx_callback ins ->
  responses_bounded s ->
  ∃ s', run ins s = Some s' ∧ responses_bounded s'.
Proof.
  intros Hrx. revert s.
  induction Hrx as [|i ins Hi _ IH]; intros s Hs.
  - by exists s.
  - destruct i as [| |rxd rx|]; try done.
    destruct (rxcallback_bounded rxd rx s Hs) as (s1 & Hstep & Hs1).
    destruct (IH s1 Hs1) as (s' & Hrun & Hs').
    exists s'. split; [|done].
    cbn [run step]. rewrite Hstep. done.
Qed.

(** C4: for every sequence of receive callbacks the response count stays
    within MAX_NUM_ANCHOR_RESPONSES (and the callbacks never leave the
    array); an ANC_FINAL frame received successfully while the collection
    is full changes nothing but the trace of driver reads: the count, the
    records and the tag state are the ones before. *)
Theorem response_count_never_exceeds_bound (ins : list input) (s : tag) :
  Forall is_rx_callback ins ->
  responses_bounded s ->
  (∃ s', run ins s = Some s' ∧
         length (_anchor_response_times s') = Z.to_nat MAX_NUM_ANCHOR_RESPONSES ∧
         _anchor_response_count s' <= MAX_NUM_ANCHOR_RESPONSES) ∧
  (∀ rxd rx,
     event rxd = DWT_SIG_RX_OKAY ->
     message_type (rx_frame rx) = MSG_TYPE_PP_NOSLOTS_ANC_FINAL ->
     _anchor_response_count s = MAX_NUM_ANCHOR_RESPONSES ->
     ∃ s', dw1000_tag_rxcallback rxd rx s = Some s' ∧
           _anchor_response_count s' = _anchor_response_count s ∧
           _anchor_response_times s' = _anchor_response_times s ∧
           _tag_state s' = _tag_state s ∧
           _ranging_listening_window_num s' = _ranging_listening_window_num s ∧
           _ranging_broadcast_ss_send_times s' = _ranging_broadcast_ss_send_times s ∧
           _ranging_broadcast_timer s' = _ranging_broadcast_timer s).
Proof.
  intros Hrx Hs. split.
  - destruct (run_rx_callbacks_bounded ins s Hrx Hs) as (s' & Hrun & Hlen & Hcnt).
    exists s'. repeat split; [done|done|lia].
  - intros rxd rx He Hm Hfull.
    exists (rx_reads rxd s). split; [apply rxcallback_full; [done|done|lia]|done].
Qed.

(** C10: the receive callback never looks at [_tag_state].  Whatever state
    the machine is put in, a successfully received ANC_FINAL frame for
    which there is room is stored in the slot the count points at, and the
    count goes up by one (as an 8-bit counter); the tag state itself is
    left as it was. *)
Theorem rx_callback_appends_in_every_state
    (st : tag_state_e) (rxd : dwt_callback_data_t) (rx : rx_registers) (s0 : tag) :
  event rxd = DWT_SIG_RX_OKAY ->
  message_type (rx_frame rx) = MSG_TYPE_PP_NOSLOTS_ANC_FINAL ->
  length (_anchor_response_times s0) = Z.to_nat MAX_NUM_ANCHOR_RESPONSES ->
  0 <= _anchor_response_count s0 < MAX_NUM_ANCHOR_RESPONSES ->
  let s := set_tag_state st s0 in
  ∃ s', dw1000_tag_rxcallback rxd rx s = Some s' ∧
        _anchor_response_times s' =
          <[Z.to_nat (_anchor_response_count s0) := response_of rx]>
            (_anchor_response_times s0) ∧
        _anchor_response_times s' !! Z.to_nat (_anchor_response_count s0) =
          Some (response_of rx) ∧
        _anchor_response_count s' = wrap8 (_anchor_response_count s0 + 1) ∧
        (_anchor_response_count s0 < 255 ->
         _anchor_response_count s' = _anchor_response_count s0 + 1) ∧
        _tag_state s' = st.
Proof.
  intros He Hm Hlen Hroom s.
  eexists. split; [by apply rxcallback_append|].
  cbn. repeat split.
  - apply list_lookup_insert_eq. lia.
  - intros Hlt. apply wrap8_small. lia.
Qed.

(** C8: a frame received successfully whose message-type byte is neither
    TAG_POLL nor ANC_FINAL yields no record and changes no global: the
    callback only performs its two driver reads. *)
Theorem rx_callback_ignores_other_message_types
    (rxd : dwt_callback_data_t) (rx : rx_registers) (s : tag) :
  event rxd = DWT_SIG_RX_OKAY ->
  message_type (rx_frame rx) ≠ MSG_TYPE_PP_NOSLOTS_TAG_POLL ->
  message_type (rx_frame rx) ≠ MSG_TYPE_PP_NOSLOTS_ANC_FINAL ->
  ∃ s', dw1000_tag_rxcallback rxd rx s = Some s' ∧
        _anchor_response_count s' = _anchor_response_count s ∧
        _anchor_response_times s' = _anchor_response_times s ∧
        _ranging_listening_window_num s' = _ranging_listening_window_num s ∧
        _tag_state s' = _tag_state s ∧
        _ranging_broadcast_ss_num s' = _ranging_broadcast_ss_num s ∧
        _ranging_broadcast_ss_send_times s' = _ranging_broadcast_ss_send_times s ∧
        pp_tag_poll_pkt s' = pp_tag_poll_pkt s ∧
        _ranging_broadcast_timer s' = _ranging_broadcast_timer s ∧
        trace s' =
          trace s ++
            [Dwt_readrxtimestamp;
             Dwt_readrxdata (Z.min DW1000_TAG_MAX_RX_PKT_LEN (datalength rxd)) 0].
Proof.
  intros He _ Hm.
  exists (rx_reads rxd s). split; [by apply rxcallback_other_type|].
  cbn. repeat split. by rewrite <- app_assoc.
Qed.

Lemma receive_errors_reconfigure e :
  e ∈ receive_errors -> rx_needs_reconfigure e = true.
Proof.
  unfold receive_errors. rewrite !elem_of_cons, elem_of_nil.
  intros [->|[->|[->|[->|[->|[]]]]]]; reflexivity.
Qed.

(** ** The transmit callback *)

Lemma timer_fire_stopped t s :
  _ranging_broadcast_timer s = None -> timer_fire t s = Some s.
Proof. intros Ht. unfold timer_fire. by rewrite Ht. Qed.

Lemma run_timer_fires_stopped (ts : list Z) (s : tag) :
  _ranging_broadcast_timer s = None -> run (TimerFire <$> ts) s = Some s.
Proof.
  intros Ht. induction ts as [|t ts IH]; [done|].
  cbn [fmap list_fmap run step]. by rewrite timer_fire_stopped.
Qed.

(** C7: a transmit callback that reports anything but success stops the
    timer and does nothing else: every other global and the trace are the
    ones before.  With the timer stopped, later timer fires find nothing to
    run, so the machine makes no further progress on its own. *)
Theorem tx_failure_only_stops_timer (data : dwt_callback_data_t) (s : tag) :
  event data ≠ DWT_SIG_TX_DONE ->
  let s' := dw1000_tag_txcallback data s in
  s' = timer_stop s ∧
  _ranging_broadcast_timer s' = None ∧
  _tag_state s' = _tag_state s ∧
  _ranging_broadcast_ss_num s' = _ranging_broadcast_ss_num s ∧
  _ranging_listening_window_num s' = _ranging_listening_window_num s ∧
  _anchor_response_count s' = _anchor_response_count s ∧
  _ranging_broadcast_ss_send_times s' = _ranging_broadcast_ss_send_times s ∧
  _anchor_response_times s' = _anchor_response_times s ∧
  pp_tag_poll_pkt s' = pp_tag_poll_pkt s ∧
  trace s' = trace s ∧
  ∀ ts : list Z, run (TimerFire <$> ts) s' = Some s'.
Proof.
  intros He s'.
  assert (s' = timer_stop s) as ->.
  { subst s'. unfold dw1000_tag_txcallback. by destruct (event data). }
  repeat split. intros ts. by apply run_timer_fires_stopped.
Qed.

(** ** Starting a ranging event *)

(** C3, as the code has it: the entry point does not look at the tag
    state.  From every state it moves to Broadcasting, zeroes the
    send-time array, resets the subsequence index and restarts the timer
    with the subsequence task; the listening-window index, the response
    count, the response records, the packet template and the trace are
    kept. *)
Theorem start_ranging_event_restarts_from_any_state (st : tag_state_e) (s : tag) :
  dw1000_tag_start_ranging_event (set_tag_state st s) =
    {| _tag_state := TSTATE_BROADCASTS;
       _ranging_broadcast_ss_num := 0;
       _ranging_listening_window_num := _ranging_listening_window_num s;
       _ranging_broadcast_ss_send_times :=
         replicate (length (_ranging_broadcast_ss_send_times s)) 0;
       _anchor_response_count := _anchor_response_count s;
       _anchor_response_times := _anchor_response_times s;
       pp_tag_poll_pkt := pp_tag_poll_pkt s;
       _ranging_broadcast_timer :=
         Some (RANGING_BROADCASTS_PERIOD_US, task_ranging_broadcast_subsequence);
       trace := trace s |}.
Proof. reflexivity. Qed.

(** C2, as the code has it: starting an event zeroes every slot of the
    send-time array and the subsequence index before anything is sent (the
    call itself adds nothing to the trace); the response count and the
    response records are left as they are.  The count is reset by the
    transmit callback that enters Listening, which leaves the records
    alone. *)
Theorem start_ranging_event_clears_send_times (s : tag) :
  let s' := dw1000_tag_start_ranging_event s in
  length (_ranging_broadcast_ss_send_times s') =
    length (_ranging_broadcast_ss_send_times s) ∧
  Forall (λ t, t = 0) (_ranging_broadcast_ss_send_times s') ∧
  _ranging_broadcast_ss_num s' = 0 ∧
  trace s' = trace s ∧
  _anchor_response_count s' = _anchor_response_count s ∧
  _anchor_response_times s' = _anchor_response_times s ∧
  let l := dw1000_tag_txcallback
             {| event := DWT_SIG_TX_DONE; datalength := 0 |}
             (set_tag_state TSTATE_TRANSITION_TO_ANC_FINAL s) in
  _tag_state l = TSTATE_LISTENING ∧
  _anchor_response_count l = 0 ∧
  _anchor_response_times l = _anchor_response_times s.
Proof.
  cbn. repeat split.
  - apply length_replicate.
  - apply Forall_replicate. done.
Qed.

(** ** Scheduled send times *)

Lemma land_clear_bit0 x : 0 <= x < 2 ^ 32 -> Z.land x 0xFFFFFFFE = 2 * (x / 2).
Proof.
  intros Hx. apply Z.bits_inj'. intros n Hn.
  rewrite Z.land_spec.
  change 0xFFFFFFFE with (Z.shiftl (Z.ones 31) 1).
  destruct (decide (n = 0)) as [->|Hn0].
  - rewrite Z.testbit_even_0, Z.shiftl_spec_low by lia. apply andb_false_r.
  - replace n with (Z.succ (n - 1)) by lia.
    rewrite Z.testbit_even_succ, Z.shiftl_spec by lia.
    replace (Z.succ (n - 1) - 1) with (n - 1) by lia.
    rewrite <- Z.div2_div, Z.div2_spec, Z.shiftr_spec by lia.
    replace (n - 1 + 1) with (Z.succ (n - 1)) by lia.
    destruct (decide (n - 1 < 31)).
    + rewrite Z.ones_spec_low by lia. apply andb_true_r.
    + rewrite Z.ones_spec_high, andb_false_r by lia.
      symmetry. apply Z.bits_above_log2; [lia|].
      destruct (decide (x = 0)) as [->|]; [simpl; lia|].
      apply Z.log2_lt_pow2; [lia|].
      apply Z.lt_le_trans with (2 ^ 32); [lia|]. apply Z.pow_le_mono_r; lia.
Qed.

Lemma wrap32_range x : 0 <= wrap32 x < 2 ^ 32.
Proof. unfold wrap32. apply Z.mod_pos_bound. lia. Qed.

Lemma delay_time_even t :
  delay_time t =
    2 * (wrap32 (t + DW_DELAY_FROM_PKT_LEN sizeof_pp_tag_poll) / 2).
Proof. unfold delay_time. apply land_clear_bit0, wrap32_range. Qed.

Lemma delay_time_range t : 0 <= delay_time t < 2 ^ 32.
Proof.
  rewrite delay_time_even.
  pose proof (wrap32_range (t + DW_DELAY_FROM_PKT_LEN sizeof_pp_tag_poll)) as Hr.
  pose proof (Z.mul_div_le (wrap32 (t + DW_DELAY_FROM_PKT_LEN sizeof_pp_tag_poll)) 2).
  pose proof (Z.div_pos (wrap32 (t + DW_DELAY_FROM_PKT_LEN sizeof_pp_tag_poll)) 2).
  lia.
Qed.

Lemma shiftl8_mul x : Z.shiftl x 8 = x * 256.
Proof. rewrite Z.shiftl_mul_pow2 by lia. reflexivity. Qed.

Lemma shiftl8_low_byte x : Z.land (Z.shiftl x 8) 0xFF = 0.
Proof.
  change 0xFF with (Z.ones 8). rewrite Z.land_ones by lia.
  rewrite shiftl8_mul. change (2 ^ 8) with 256. apply Z.mod_mul. lia.
Qed.

Lemma wrap64_shiftl8 x : 0 <= x < 2 ^ 32 -> wrap64 (Z.shiftl x 8) = Z.shiftl x 8.
Proof.
  intros Hx. unfold wrap64. rewrite shiftl8_mul.
  apply Z.mod_small. lia.
Qed.

Lemma scheduled_send_time_stored t :
  wrap64 (Z.shiftl (delay_time t) 8) = scheduled_send_time t.
Proof. apply wrap64_shiftl8, delay_time_range. Qed.

Lemma scheduled_send_time_mul t :
  scheduled_send_time t =
    2 * (wrap32 (t + DW_DELAY_FROM_PKT_LEN sizeof_pp_tag_poll) / 2) * 256.
Proof.
  unfold scheduled_send_time. rewrite shiftl8_mul.
  f_equal. apply delay_time_even.
Qed.

Lemma scheduled_send_time_range t : 0 <= scheduled_send_time t < 2 ^ 40.
Proof.
  pose proof (delay_time_range t) as Hr. unfold delay_time in Hr.
  unfold scheduled_send_time. rewrite shiftl8_mul. lia.
Qed.

Lemma stores_and_starts_app tr1 tr2 :
  stores_and_starts (tr1 ++ tr2) = stores_and_starts tr1 ++ stores_and_starts tr2.
Proof. apply List.filter_app. Qed.

Lemma send_poll_in_range t s :
  0 <= _ranging_broadcast_ss_num s
    < Z.of_nat (length (_ranging_broadcast_ss_send_times s)) ->
  ∃ s', send_poll t s = Some s' ∧
        _ranging_broadcast_ss_send_times s' =
          <[Z.to_nat (_ranging_broadcast_ss_num s) := scheduled_send_time t]>
            (_ranging_broadcast_ss_send_times s) ∧
        _ranging_broadcast_ss_num s' = _ranging_broadcast_ss_num s ∧
        _ranging_broadcast_timer s' = _ranging_broadcast_timer s ∧
        _tag_state s' = _tag_state s ∧
        _ranging_listening_window_num s' = _ranging_listening_window_num s ∧
        _anchor_response_count s' = _anchor_response_count s ∧
        _anchor_response_times s' = _anchor_response_times s ∧
        subsequence (pp_tag_poll_pkt s') = _ranging_broadcast_ss_num s ∧
        In (Dwt_setdelayedtrxtime (delay_time t)) (trace s') ∧
        stores_and_starts (trace s') =
          stores_and_starts (trace s) ++
            [Store_send_time (_ranging_broadcast_ss_num s) (scheduled_send_time t);
             Dwt_starttx true
               (bool_decide (_ranging_broadcast_ss_num s = NUM_RANGING_BROADCASTS - 1))].
Proof.
  intros Hi. unfold send_poll.
  cbn [call set_poll_pkt _ranging_broadcast_ss_send_times _ranging_broadcast_ss_num].
  rewrite array_store_in_range by done.
  rewrite scheduled_send_time_stored.
  cbn [mbind option_bind].
  eexists. split; [reflexivity|].
  case_bool_decide as Hl; [rewrite decide_True by done|rewrite decide_False by done];
    cbn [call set_send_times set_poll_pkt _ranging_broadcast_ss_send_times
         _ranging_broadcast_ss_num _ranging_broadcast_timer _tag_state
         _ranging_listening_window_num _anchor_response_count
         _anchor_response_times pp_tag_poll_pkt subsequence trace];
    repeat split;
    try (rewrite !in_app_iff; cbn; tauto);
    rewrite !stores_and_starts_app; cbn; rewrite <- !app_assoc; reflexivity.
Qed.

(** C9: the send time [send_poll] stores in the slot of the current
    subsequence is the 32-bit sum of the high system timestamp and the
    packet-length margin (wrapping modulo 2^32), with bit 0 cleared, shifted
    left by 8: its low byte and bit 8 are zero and it fits in 40 bits; the
    radio is programmed with the same 32-bit value.  The transmit time an
    anchor declares in ANC_FINAL is stored shifted left by 8 as well. *)
Theorem stored_times_are_32bit_values_shifted_by_8
    (t : Z) (s : tag) (rxd : dwt_callback_data_t) (rx : rx_registers) (q : tag) :
  0 <= _ranging_broadcast_ss_num s
    < Z.of_nat (length (_ranging_broadcast_ss_send_times s)) ->
  event rxd = DWT_SIG_RX_OKAY ->
  message_type (rx_frame rx) = MSG_TYPE_PP_NOSLOTS_ANC_FINAL ->
  length (_anchor_response_times q) = Z.to_nat MAX_NUM_ANCHOR_RESPONSES ->
  0 <= _anchor_response_count q < MAX_NUM_ANCHOR_RESPONSES ->
  0 <= dw_time_sent (rx_frame rx) < 2 ^ 32 ->
  (∃ s' v,
     send_poll t s = Some s' ∧
     _ranging_broadcast_ss_send_times s' !! Z.to_nat (_ranging_broadcast_ss_num s)
       = Some v ∧
     v = Z.shiftl
           (Z.land ((t + DW_DELAY_FROM_PKT_LEN sizeof_pp_tag_poll) mod 2 ^ 32)
                   0xFFFFFFFE) 8 ∧
     Z.land v 0xFF = 0 ∧
     Z.testbit v 8 = false ∧
     0 <= v < 2 ^ 40 ∧
     In (Dwt_setdelayedtrxtime (Z.shiftr v 8)) (trace s')) ∧
  (∃ q' r,
     dw1000_tag_rxcallback rxd rx q = Some q' ∧
     _anchor_response_times q' !! Z.to_nat (_anchor_response_count q) = Some r ∧
     anc_final_tx_timestamp r = Z.shiftl (dw_time_sent (rx_frame rx)) 8 ∧
     Z.land (anc_final_tx_timestamp r) 0xFF = 0 ∧
     anc_final_rx_timestamp r = rx_timestamp rx).
Proof.
  intros Hi He Hm Hlen Hroom Hsent. split.
  - destruct (send_poll_in_range t s Hi)
      as (s' & Hs' & Htimes & _ & _ & _ & _ & _ & _ & _ & Hin & _).
    exists s', (scheduled_send_time t). split; [done|].
    split; [rewrite Htimes; apply list_lookup_insert_eq; lia|].
    split; [reflexivity|].
    split; [apply shiftl8_low_byte|].
    split.
    { unfold scheduled_send_time. rewrite Z.shiftl_spec by lia.
      change (8 - 8) with 0. fold (delay_time t).
      rewrite delay_time_even. apply Z.testbit_even_0. }
    split; [apply scheduled_send_time_range|].
    unfold scheduled_send_time. fold (delay_time t).
    rewrite Z.shiftr_shiftl_l by lia. change (8 - 8) with 0.
    by rewrite Z.shiftl_0_r.
  - eexists. exists (response_of rx).
    split; [by apply rxcallback_append|].
    cbn. split; [apply list_lookup_insert_eq; lia|].
    rewrite wrap64_shiftl8 by done.
    repeat split. apply shiftl8_low_byte.
Qed.

(** ** The broadcast phase *)

Lemma subsequence_task_in_range t s :
  0 <= _ranging_broadcast_ss_num s
    < Z.of_nat (length (_ranging_broadcast_ss_send_times s)) ->
  ∃ s', ranging_broadcast_subsequence_task t s = Some s' ∧
        _ranging_broadcast_ss_send_times s' =
          <[Z.to_nat (_ranging_broadcast_ss_num s) := scheduled_send_time t]>
            (_ranging_broadcast_ss_send_times s) ∧
        _ranging_broadcast_ss_num s' = wrap8 (_ranging_broadcast_ss_num s + 1) ∧
        _ranging_broadcast_timer s' =
          (if decide (_ranging_broadcast_ss_num s = NUM_RANGING_BROADCASTS - 1)
           then None else _ranging_broadcast_timer s) ∧
        _tag_state s' = _tag_state s ∧
        _ranging_listening_window_num s' = _ranging_listening_window_num s ∧
        _anchor_response_count s' = _anchor_response_count s ∧
        _anchor_response_times s' = _anchor_response_times s ∧
        stores_and_starts (trace s') =
          stores_and_starts (trace s) ++
            [Store_send_time (_ranging_broadcast_ss_num s) (scheduled_send_time t);
             Dwt_starttx true
               (bool_decide (_ranging_broadcast_ss_num s = NUM_RANGING_BROADCASTS - 1))].
Proof.
  intros Hi. unfold ranging_broadcast_subsequence_task.
  set (s1 := call _ _).
  assert (_ranging_broadcast_ss_num s1 = _ranging_broadcast_ss_num s
          ∧ _ranging_broadcast_ss_send_times s1 = _ranging_broadcast_ss_send_times s
          ∧ _ranging_broadcast_timer s1 =
              (if decide (_ranging_broadcast_ss_num s = NUM_RANGING_BROADCASTS - 1)
               then None else _ranging_broadcast_timer s)
          ∧ _tag_state s1 = _tag_state s
          ∧ _ranging_listening_window_num s1 = _ranging_listening_window_num s
          ∧ _anchor_response_count s1 = _anchor_response_count s
          ∧ _anchor_response_times s1 = _anchor_response_times s
          ∧ stores_and_starts (trace s1) = stores_and_starts (trace s))
    as (Hn & Hts & Htm & Hst & Hw & Hc & Hr & Htr).
  { subst s1. case_decide; cbn; rewrite stores_and_starts_app, app_nil_r; done. }
  destruct (send_poll_in_range t s1)
    as (s2 & Hs2 & Hts2 & Hn2 & Htm2 & Hst2 & Hw2 & Hc2 & Hr2 & _ & _ & Htr2).
  { by rewrite Hn, Hts. }
  rewrite Hs2. cbn [mbind option_bind].
  eexists. split; [reflexivity|].
  cbn [set_ss_num _ranging_broadcast_ss_send_times _ranging_broadcast_ss_num
       _ranging_broadcast_timer _tag_state _ranging_listening_window_num
       _anchor_response_count _anchor_response_times trace].
  rewrite Hts2, Hn2, Htm2, Hst2, Hw2, Hc2, Hr2, Htr2, Hn, Hts, Htr.
  done.
Qed.

Lemma insert_take_snoc {A : Type} (l : list A) (j : nat) (v : A) :
  (j < length l)%nat -> take (S j) (<[j := v]> l) = take j l ++ [v].
Proof.
  intros Hj.
  rewrite (take_S_r _ _ v) by (by apply list_lookup_insert_eq).
  by rewrite take_insert_ge by lia.
Qed.

Lemma run_timer_fire_cons t ts s :
  run (TimerFire <$> (t :: ts)) s = s' ← timer_fire t s; run (TimerFire <$> ts) s'.
Proof. reflexivity. Qed.

Lemma run_broadcasts (ts : list Z) :
  ∀ s : tag,
    NUM_RANGING_BROADCASTS <= 256 ->
    length (_ranging_broadcast_ss_send_times s) = Z.to_nat NUM_RANGING_BROADCASTS ->
    0 <= _ranging_broadcast_ss_num s ->
    _ranging_broadcast_ss_num s + Z.of_nat (length ts) = NUM_RANGING_BROADCASTS ->
    (ts ≠ [] -> ∃ p, _ranging_broadcast_timer s =
                       Some (p, task_ranging_broadcast_subsequence)) ->
    ∃ s', run (TimerFire <$> ts) s = Some s' ∧
          _ranging_broadcast_ss_send_times s' =
            take (Z.to_nat (_ranging_broadcast_ss_num s))
                 (_ranging_broadcast_ss_send_times s)
              ++ (scheduled_send_time <$> ts) ∧
          (ts ≠ [] -> _ranging_broadcast_timer s' = None ∧
                      _ranging_broadcast_ss_num s' = wrap8 NUM_RANGING_BROADCASTS) ∧
          _tag_state s' = _tag_state s ∧
          _ranging_listening_window_num s' = _ranging_listening_window_num s ∧
          _anchor_response_count s' = _anchor_response_count s ∧
          _anchor_response_times s' = _anchor_response_times s ∧
          stores_and_starts (trace s') =
            stores_and_starts (trace s)
              ++ broadcast_marks (_ranging_broadcast_ss_num s) ts.
Proof.
  induction ts as [|t ts IH]; intros s HN Hlen Hj Hsum Htimer.
  - exists s. cbn [length] in Hsum. cbn. rewrite !app_nil_r.
    repeat split; try done.
    rewrite take_ge by lia. done.
  - cbn [length] in Hsum.
    destruct Htimer as [p Hp]; [done|].
    rewrite run_timer_fire_cons. unfold timer_fire. rewrite Hp.
    destruct (subsequence_task_in_range t s)
      as (s1 & Hs1 & Hts1 & Hn1 & Htm1 & Hst1 & Hw1 & Hc1 & Hr1 & Htr1); [lia|].
    rewrite Hs1. cbn [mbind option_bind].
    destruct ts as [|t' ts'].
    + cbn [length] in Hsum.
      exists s1. split; [done|].
      assert (_ranging_broadcast_ss_num s = NUM_RANGING_BROADCASTS - 1) as Hlast by lia.
      rewrite decide_True in Htm1 by done.
      repeat split; try done.
      * rewrite Hts1. cbn [fmap list_fmap].
        rewrite <- (insert_take_snoc _ (Z.to_nat (_ranging_broadcast_ss_num s)))
          by lia.
        rewrite take_ge; [done|]. rewrite length_insert. lia.
      * rewrite Hn1. f_equal. lia.
    + cbn [length] in Hsum, IH.
      assert (_ranging_broadcast_ss_num s1 = _ranging_broadcast_ss_num s + 1) as Hn1'.
      { rewrite Hn1. apply wrap8_small. lia. }
      rewrite decide_False in Htm1 by lia.
      destruct (IH s1) as (s' & Hrun & Hts' & Hend & Hst' & Hw' & Hc' & Hr' & Htr');
        [done| |lia|lia| |].
      { by rewrite Hts1, length_insert. }
      { intros _. exists p. by rewrite Htm1. }
      exists s'. split; [done|].
      split.
      { rewrite Hts', Hn1', Hts1.
        replace (Z.to_nat (_ranging_broadcast_ss_num s + 1))
          with (S (Z.to_nat (_ranging_broadcast_ss_num s))) by lia.
        rewrite insert_take_snoc by lia.
        rewrite <- app_assoc. reflexivity. }
      split; [intros _; by apply Hend|].
      rewrite Hst', Hw', Hc', Hr', Htr', Htr1, Hn1'.
      repeat split; try done.
      by rewrite <- app_assoc.
Qed.

Lemma scheduled_send_time_no_wrap t :
  0 <= t + DW_DELAY_FROM_PKT_LEN sizeof_pp_tag_poll < 2 ^ 32 ->
  scheduled_send_time t =
    2 * ((t + DW_DELAY_FROM_PKT_LEN sizeof_pp_tag_poll) / 2) * 256.
Proof.
  intros Ht. rewrite scheduled_send_time_mul.
  unfold wrap32. by rewrite Z.mod_small.
Qed.

Lemma scheduled_send_time_positive t :
  2 <= t + DW_DELAY_FROM_PKT_LEN sizeof_pp_tag_poll < 2 ^ 32 ->
  0 < scheduled_send_time t.
Proof.
  intros Ht. rewrite scheduled_send_time_no_wrap by lia.
  pose proof (Z.div_le_mono 2 (t + DW_DELAY_FROM_PKT_LEN sizeof_pp_tag_poll) 2)
    as Hd.
  change (2 / 2) with 1 in Hd. lia.
Qed.

Lemma scheduled_send_time_increasing a b :
  0 <= a + DW_DELAY_FROM_PKT_LEN sizeof_pp_tag_poll ->
  b + DW_DELAY_FROM_PKT_LEN sizeof_pp_tag_poll < 2 ^ 32 ->
  a + 2 <= b ->
  scheduled_send_time a < scheduled_send_time b.
Proof.
  intros Ha Hb Hab. rewrite !scheduled_send_time_no_wrap by lia.
  set (d := DW_DELAY_FROM_PKT_LEN sizeof_pp_tag_poll) in *.
  pose proof (Z.div_le_mono (a + d + 1 * 2) (b + d) 2) as Hd.
  rewrite Z.div_add in Hd by lia. lia.
Qed.

Lemma spaced_far (ts : list Z) (i j : nat) (a b : Z) :
  spaced ts -> (i < j)%nat -> ts !! i = Some a -> ts !! j = Some b -> a + 2 <= b.
Proof.
  intros Hsp Hij Ha. revert b.
  induction Hij as [|j Hij IH]; intros b Hb.
  - by apply (Hsp i).
  - destruct (lookup_lt_is_Some_2 ts j) as [c Hc].
    { apply lookup_lt_Some in Hb. lia. }
    pose proof (IH c Hc). pose proof (Hsp j c b Hc Hb). lia.
Qed.

(** Apart from a timer fire that runs the subsequence task, no input adds
    a store into the send-time array or a start of transmission. *)
Lemma only_subsequence_task_stores (i : input) (s s' : tag) :
  ¬ runs_subsequence_task i s ->
  step i s = Some s' ->
  stores_and_starts (trace s') = stores_and_starts (trace s).
Proof.
  intros Hno. destruct i as [|data|rxd rx|t]; cbn [step].
  - intros [= <-]. reflexivity.
  - intros [= <-]. unfold dw1000_tag_txcallback.
    destruct (event data); try reflexivity.
    destruct (_tag_state s); reflexivity.
  - unfold dw1000_tag_rxcallback.
    destruct (event rxd); cbn [rx_needs_reconfigure];
      try (intros [= <-]; cbn [call trace];
           rewrite ?stores_and_starts_app, ?app_nil_r; reflexivity).
    repeat case_decide;
      try (intros [= <-]; cbn [call trace];
           rewrite ?stores_and_starts_app, ?app_nil_r; reflexivity).
    cbn [call _anchor_response_times _anchor_response_count].
    destruct (array_store _ _ _); [|done].
    intros [= <-]. cbn. rewrite !stores_and_starts_app. cbn.
    by rewrite !app_nil_r.
  - unfold timer_fire.
    destruct (_ranging_broadcast_timer s) as [[p [|]]|] eqn:Htm.
    + exfalso. apply Hno. by exists t, p.
    + intros [= <-]. unfold ranging_listening_window_task.
      case_decide; cbn; rewrite ?stores_and_starts_app; cbn;
        by rewrite ?app_nil_r.
    + by intros [= <-].
Qed.

(** C5, as the code has it: let the number of broadcasts be between 1 and
    256 (the subsequence index is an 8-bit counter) and let the clock not
    wrap during the event: every reading plus the margin lies in
    [2, 2^32) and successive readings are at least two ticks apart.  Then
    starting an event and letting the timer fire once per broadcast
    succeeds, stops the timer, and leaves exactly NUM_RANGING_BROADCASTS
    entries in the send-time array, all non-zero and strictly increasing.
    Slot after slot is stored once, in index order, each store coming
    before the start of that slot's transmission; and nothing but the
    subsequence task adds such a store. *)
Theorem broadcast_send_times_nonzero_increasing (ts : list Z) (s : tag) :
  1 <= NUM_RANGING_BROADCASTS <= 256 ->
  length (_ranging_broadcast_ss_send_times s) = Z.to_nat NUM_RANGING_BROADCASTS ->
  length ts = Z.to_nat NUM_RANGING_BROADCASTS ->
  Forall (λ t, 2 <= t + DW_DELAY_FROM_PKT_LEN sizeof_pp_tag_poll < 2 ^ 32) ts ->
  spaced ts ->
  ∃ s', run (StartRangingEvent :: (TimerFire <$> ts)) s = Some s' ∧
        _ranging_broadcast_ss_send_times s' = scheduled_send_time <$> ts ∧
        length (_ranging_broadcast_ss_send_times s')
          = Z.to_nat NUM_RANGING_BROADCASTS ∧
        Forall (λ v, v ≠ 0) (_ranging_broadcast_ss_send_times s') ∧
        (∀ (i j : nat) (a b : Z),
           (i < j)%nat ->
           _ranging_broadcast_ss_send_times s' !! i = Some a ->
           _ranging_broadcast_ss_send_times s' !! j = Some b ->
           a < b) ∧
        _ranging_broadcast_timer s' = None ∧
        stores_and_starts (trace s') =
          stores_and_starts (trace s) ++ broadcast_marks 0 ts ∧
        (∀ (i : input) (q q' : tag),
           ¬ runs_subsequence_task i q ->
           step i q = Some q' ->
           stores_and_starts (trace q') = stores_and_starts (trace q)).
Proof.
  intros HN Hlen Hts Hrange Hsp.
  set (s0 := dw1000_tag_start_ranging_event s).
  destruct (run_broadcasts ts s0)
    as (s' & Hrun & Htimes & Hend & _ & _ & _ & _ & Htr).
  { lia. }
  { subst s0. cbn. by rewrite length_replicate. }
  { subst s0. cbn. lia. }
  { subst s0. cbn. lia. }
  { intros _. subst s0. cbn. eauto. }
  assert (ts ≠ []) as Hne by (intros ->; cbn in Hts; lia).
  destruct (Hend Hne) as [Htimer _].
  change (_ranging_broadcast_ss_num s0) with 0 in Htimes, Htr.
  change (trace s0) with (trace s) in Htr.
  change (_ranging_broadcast_ss_send_times s' = scheduled_send_time <$> ts)
    in Htimes.
  exists s'. split; [exact Hrun|].
  split; [exact Htimes|].
  split; [by rewrite Htimes, length_fmap|].
  split.
  { rewrite Htimes. apply Forall_fmap.
    eapply List.Forall_impl; [|exact Hrange].
    intros t Ht. cbn. pose proof (scheduled_send_time_positive t Ht). lia. }
  split.
  { intros i j a b Hij. rewrite Htimes, !list_lookup_fmap.
    destruct (ts !! i) as [ta|] eqn:Ha; [|done].
    destruct (ts !! j) as [tb|] eqn:Hb; [|done].
    intros [= <-] [= <-].
    pose proof (spaced_far ts i j ta tb Hsp Hij Ha Hb).
    rewrite Forall_lookup in Hrange.
    pose proof (Hrange i ta Ha). pose proof (Hrange j tb Hb).
    apply scheduled_send_time_increasing; lia. }
  split; [exact Htimer|].
  split; [exact Htr|].
  intros i q q'. apply only_subsequence_task_stores.
Qed.

(** ** No input takes the machine outside its arrays *)

Lemma rxcallback_keeps_broadcast_state rxd rx s s' :
  dw1000_tag_rxcallback rxd rx s = Some s' ->
  _ranging_broadcast_ss_num s' = _ranging_broadcast_ss_num s ∧
  _ranging_broadcast_ss_send_times s' = _ranging_broadcast_ss_send_times s ∧
  _ranging_broadcast_timer s' = _ranging_broadcast_timer s ∧
  _ranging_listening_window_num s' = _ranging_listening_window_num s ∧
  _tag_state s' = _tag_state s.
Proof.
  unfold dw1000_tag_rxcallback.
  destruct (event rxd); cbn [rx_needs_reconfigure];
    try (by intros [= <-]).
  repeat case_decide; try (by intros [= <-]).
  cbn [call _anchor_response_times _anchor_response_count].
  destruct (array_store _ _ _); [|done].
  by intros [= <-].
Qed.

Lemma boot_invariant :
  0 <= NUM_RANGING_BROADCASTS ->
  0 <= MAX_NUM_ANCHOR_RESPONSES ->
  machine_invariant tag_boot.
Proof.
  intros HN HM. split; [|split].
  - split; cbn; rewrite ?length_replicate; lia.
  - cbn. lia.
  - intros p. discriminate.
Qed.

Lemma step_invariant (i : input) (s : tag) :
  1 <= NUM_RANGING_BROADCASTS <= 256 ->
  machine_invariant s ->
  ∃ s', step i s = Some s' ∧ machine_invariant s'.
Proof.
  intros HN ([Hst Hrt Hss Hwn Hrc] & Hcnt & Htask).
  destruct i as [|data|rxd rx|t]; cbn [step].
  - eexists. split; [reflexivity|].
    split; [|split].
    + split; cbn; rewrite ?length_replicate; done || lia.
    + done.
    + intros p _. cbn. lia.
  - eexists. split; [reflexivity|].
    unfold dw1000_tag_txcallback.
    destruct (event data);
      try (split; [|split]; [by split|done|intros p; discriminate]).
    destruct (_tag_state s);
      try (split; [|split]; [by split|done|done]).
    split; [|split].
    + split; cbn; done || lia.
    + cbn. lia.
    + intros p. discriminate.
  - destruct (rxcallback_bounded rxd rx s) as (s' & Hrx & Hlen' & Hcnt').
    { split; [done|lia]. }
    destruct (rxcallback_keeps_broadcast_state rxd rx s s' Hrx)
      as (Hn & Hts & Htm & Hw & _).
    exists s'. split; [done|].
    split; [|split].
    + split; [by rewrite Hts|done|by rewrite Hn|by rewrite Hw|].
      assert (_anchor_response_count s' = _anchor_response_count s
              ∨ _anchor_response_count s'
                = wrap8 (_anchor_response_count s + 1)) as [->| ->].
      { revert Hrx. unfold dw1000_tag_rxcallback.
        destruct (event rxd); cbn [rx_needs_reconfigure];
          try (intros [= <-]; by left).
        repeat case_decide; try (intros [= <-]; by left).
        cbn [call _anchor_response_times _anchor_response_count].
        destruct (array_store _ _ _); [|done].
        intros [= <-]. by right. }
      * done.
      * apply wrap8_range.
    + lia.
    + intros p. rewrite Htm, Hn. apply Htask.
  - unfold timer_fire.
    destruct (_ranging_broadcast_timer s) as [[p [|]]|] eqn:Htm.
    + pose proof (Htask p eq_refl) as Hlt.
      destruct (subsequence_task_in_range t s)
        as (s' & Hs' & Hts' & Hn' & Htm' & _ & Hw' & Hc' & Hr' & _); [lia|].
      exists s'. split; [done|].
      split; [|split].
      * split; [by rewrite Hts', length_insert|by rewrite Hr'
               |rewrite Hn'; apply wrap8_range|by rewrite Hw'|by rewrite Hc'].
      * by rewrite Hc'.
      * intros p'. rewrite Htm', Hn'. case_decide; [done|].
        intros _. rewrite wrap8_small; lia.
    + eexists. split; [reflexivity|].
      unfold ranging_listening_window_task. case_decide.
      * split; [|split]; [by split|done|intros p'; discriminate].
      * split; [|split].
        -- split; cbn; try done. apply wrap8_range.
        -- done.
        -- intros p'. cbn. rewrite Htm. discriminate.
    + exists s. split; [done|].
      split; [|split]; [by split|done|intros p'; rewrite Htm; discriminate].
Qed.

(** Whatever the surrounding firmware, the radio and the timer do, the
    handlers never index outside an array, and the state stays within the
    invariant. *)
Lemma run_invariant (ins : list input) (s : tag) :
  1 <= NUM_RANGING_BROADCASTS <= 256 ->
  machine_invariant s ->
  ∃ s', run ins s = Some s' ∧ machine_invariant s'.
Proof.
  intros HN. revert s.
  induction ins as [|i ins IH]; intros s Hs.
  - by exists s.
  - destruct (step_invariant i s HN Hs) as (s1 & Hstep & Hs1).
    destruct (IH s1 Hs1) as (s' & Hrun & Hs').
    exists s'. split; [|done].
    cbn [run]. by rewrite Hstep.
Qed.

(** ** The listening phase *)

Lemma txcallback_enters_listening (data : dwt_callback_data_t) (s : tag) :
  event data = DWT_SIG_TX_DONE ->
  _tag_state s = TSTATE_TRANSITION_TO_ANC_FINAL ->
  dw1000_tag_txcallback data s =
    timer_start RANGING_LISTENING_WINDOW_US task_ranging_listening_window
      (set_response_count 0 (set_window_num 0 (set_tag_state TSTATE_LISTENING s))).
Proof. intros He Hs. unfold dw1000_tag_txcallback. by rewrite He, Hs. Qed.

Lemma txcallback_done_elsewhere (data : dwt_callback_data_t) (s : tag) :
  event data = DWT_SIG_TX_DONE ->
  _tag_state s ≠ TSTATE_TRANSITION_TO_ANC_FINAL ->
  dw1000_tag_txcallback data s = s.
Proof.
  intros He Hs. unfold dw1000_tag_txcallback. rewrite He.
  by destruct (_tag_state s).
Qed.

Lemma listening_window_task_next (s : tag) :
  _ranging_listening_window_num s ≠ NUM_RANGING_LISTENING_WINDOWS ->
  ranging_listening_window_task s =
    set_window_num (wrap8 (_ranging_listening_window_num s + 1))
      (call (Dw1000_set_ranging_listening_window_settings
               (_ranging_listening_window_num s)) s).
Proof. intros Hw. unfold ranging_listening_window_task. by rewrite decide_False. Qed.

Lemma listening_window_task_last (s : tag) :
  _ranging_listening_window_num s = NUM_RANGING_LISTENING_WINDOWS ->
  ranging_listening_window_task s =
    calculate_ranges
      (set_tag_state TSTATE_CALCULATE_RANGE (call Dwt_forcetrxoff (timer_stop s))).
Proof. intros Hw. unfold ranging_listening_window_task. by rewrite decide_True. Qed.

Lemma timer_fire_listening t p s :
  _ranging_broadcast_timer s = Some (p, task_ranging_listening_window) ->
  timer_fire t s = Some (ranging_listening_window_task s).
Proof. intros Ht. unfold timer_fire. by rewrite Ht. Qed.

Lemma run_start_cons (ins : list input) (s : tag) :
  run (StartRangingEvent :: ins) s = run ins (dw1000_tag_start_ranging_event s).
Proof. reflexivity. Qed.

End Properties.

(** * Further properties of the handlers *)

Section MoreProperties.

Context {C : firmware_constants}.

(** ** Runs *)

Lemma run_app (ins1 ins2 : list input) (s : tag) :
  run (ins1 ++ ins2) s = s' ← run ins1 s; run ins2 s'.
Proof.
  revert s. induction ins1 as [|i ins1 IH]; intros s; [done|].
  cbn [app run]. destruct (step i s) as [s1|]; [|done].
  cbn [mbind option_bind]. apply IH.
Qed.

Lemma run_cons (i : input) (ins : list input) (s : tag) :
  run (i :: ins) s = s' ← step i s; run ins s'.
Proof. reflexivity. Qed.

(** An invariant of every step is an invariant of every run. *)
Lemma run_preserves (P : tag -> Prop) :
  (∀ i s s', P s -> step i s = Some s' -> P s') ->
  ∀ ins s s', P s -> run ins s = Some s' -> P s'.
Proof.
  intros Hstep. induction ins as [|i ins IH]; intros s s' Hs.
  - by intros [= <-].
  - rewrite run_cons. destruct (step i s) as [s1|] eqn:H1; [|done].
    cbn [mbind option_bind]. apply IH. by eapply Hstep.
Qed.

(** ** What one broadcast adds to the trace *)

Lemma subsequence_task_outside_array t s :
  ¬ (0 <= _ranging_broadcast_ss_num s
       < Z.of_nat (length (_ranging_broadcast_ss_send_times s))) ->
  ranging_broadcast_subsequence_task t s = None.
Proof.
  intros Hi. unfold ranging_broadcast_subsequence_task.
  rewrite send_poll_outside_array; [done|].
  by case_decide.
Qed.

Lemma send_poll_calls t s s' :
  send_poll t s = Some s' ->
  pp_tag_poll_pkt s' = stamp (pp_tag_poll_pkt s) (_ranging_broadcast_ss_num s) ∧
  trace s' =
    trace s ++
      [Dwt_forcetrxoff;
       Dwt_writetxfctrl sizeof_pp_tag_poll 0;
       Dwt_readsystimestamphi32;
       Dwt_setdelayedtrxtime (delay_time t);
       Store_send_time (_ranging_broadcast_ss_num s) (scheduled_send_time t);
       Dwt_writetxdata sizeof_pp_tag_poll
         (stamp (pp_tag_poll_pkt s) (_ranging_broadcast_ss_num s)) 0]
      ++ (if decide (_ranging_broadcast_ss_num s = NUM_RANGING_BROADCASTS - 1)
          then [Dwt_setrxaftertxdelay 1; Dwt_starttx true true]
          else [Dwt_starttx true false])
      ++ [Dwt_settxantennadelay].
Proof.
  destruct (decide (0 <= _ranging_broadcast_ss_num s
                      < Z.of_nat (length (_ranging_broadcast_ss_send_times s))))
    as [Hi|Hi]; [|by rewrite send_poll_outside_array].
  unfold send_poll.
  cbn [call set_poll_pkt _ranging_broadcast_ss_send_times _ranging_broadcast_ss_num].
  rewrite array_store_in_range by done.
  rewrite scheduled_send_time_stored.
  cbn [mbind option_bind].
  intros [= <-].
  case_decide as Hl;
    cbn [call set_send_times set_poll_pkt pp_tag_poll_pkt trace
         _ranging_broadcast_ss_num];
    (split; [reflexivity|]); rewrite <- !app_assoc; reflexivity.
Qed.

Lemma subsequence_task_calls t s s' :
  ranging_broadcast_subsequence_task t s = Some s' ->
  pp_tag_poll_pkt s' = stamp (pp_tag_poll_pkt s) (_ranging_broadcast_ss_num s) ∧
  trace s' =
    trace s ++ broadcast_calls (_ranging_broadcast_ss_num s) t (pp_tag_poll_pkt s').
Proof.
  unfold ranging_broadcast_subsequence_task.
  set (s1 := call _ _).
  assert (pp_tag_poll_pkt s1 = pp_tag_poll_pkt s
          ∧ _ranging_broadcast_ss_num s1 = _ranging_broadcast_ss_num s
          ∧ trace s1 = trace s ++ [Dw1000_set_ranging_broadcast_subsequence_settings
                                     (_ranging_broadcast_ss_num s)])
    as (Hpkt1 & Hn1 & Htr1).
  { subst s1. by case_decide. }
  destruct (send_poll t s1) as [s2|] eqn:H2; [|done].
  cbn [mbind option_bind]. intros [= <-].
  destruct (send_poll_calls t s1 s2 H2) as (Hpkt2 & Htr2).
  cbn [set_ss_num pp_tag_poll_pkt trace].
  rewrite Hpkt2, Htr2, Hpkt1, Hn1, Htr1.
  split; [reflexivity|].
  unfold broadcast_calls. rewrite <- !app_assoc. reflexivity.
Qed.

(** ** What the other handlers add to the trace *)

Lemma calculator_calls_app tr1 tr2 :
  calculator_calls (tr1 ++ tr2)
    = (calculator_calls tr1 + calculator_calls tr2)%nat.
Proof. unfold calculator_calls. by rewrite List.filter_app, length_app. Qed.

Lemma written_packets_app tr1 tr2 :
  written_packets (tr1 ++ tr2) = written_packets tr1 ++ written_packets tr2.
Proof.
  induction tr1 as [|a tr1 IH]; [done|].
  destruct a; cbn [app written_packets]; by rewrite ?IH.
Qed.

Lemma rxcallback_calls rxd rx s s' :
  dw1000_tag_rxcallback rxd rx s = Some s' ->
  pp_tag_poll_pkt s' = pp_tag_poll_pkt s ∧
  ∃ tr, trace s' = trace s ++ tr ∧
        (tr = [] ∨
         tr = [Dwt_readrxtimestamp;
               Dwt_readrxdata (Z.min DW1000_TAG_MAX_RX_PKT_LEN (datalength rxd)) 0] ∨
         tr = [Dw1000_set_ranging_listening_window_settings
                 (_ranging_listening_window_num s)]).
Proof.
  assert (∀ q, trace (rx_reads rxd q) =
               trace q ++ [Dwt_readrxtimestamp;
                           Dwt_readrxdata
                             (Z.min DW1000_TAG_MAX_RX_PKT_LEN (datalength rxd)) 0])
    as Hreads.
  { intros q. cbn. by rewrite <- app_assoc. }
  unfold dw1000_tag_rxcallback.
  destruct (event rxd); cbn [rx_needs_reconfigure];
    try (intros [= <-]; split; [done|];
         first [by exists []; rewrite app_nil_r; auto
               |eexists; split; [reflexivity|]; auto]).
  fold (rx_reads rxd s).
  repeat case_decide;
    try (intros [= <-]; split; [done|]; eexists; split; [apply Hreads|]; auto).
  cbn [rx_reads call _anchor_response_times _anchor_response_count].
  destruct (array_store _ _ _); [|done].
  intros [= <-]. split; [done|].
  eexists. split; [apply (Hreads s)|]. auto.
Qed.

Lemma listening_window_task_calls s :
  pp_tag_poll_pkt (ranging_listening_window_task s) = pp_tag_poll_pkt s ∧
  trace (ranging_listening_window_task s) =
    trace s ++
      (if decide (_ranging_listening_window_num s = NUM_RANGING_LISTENING_WINDOWS)
       then [Dwt_forcetrxoff; Enter_calculate_ranges]
       else [Dw1000_set_ranging_listening_window_settings
               (_ranging_listening_window_num s)]).
Proof.
  unfold ranging_listening_window_task.
  case_decide; cbn; rewrite <- ?app_assoc; done.
Qed.

(** ** The states the handlers reach from boot *)

Lemma boot_before_listening : before_listening tag_boot.
Proof. repeat split; auto. Qed.

Lemma step_before_listening i s s' :
  before_listening s -> step i s = Some s' -> before_listening s'.
Proof.
  intros (Hst & Hw & Htm & Hcalc).
  destruct i as [|data|rxd rx|t]; cbn [step].
  - intros [= <-]. repeat split; auto; intros p; discriminate.
  - intros [= <-]. unfold dw1000_tag_txcallback.
    destruct (event data); try (repeat split; auto; intros p; discriminate).
    destruct Hst as [Hst|Hst]; rewrite Hst; by repeat split; auto.
  - intros Hrx.
    destruct (rxcallback_keeps_broadcast_state _ _ _ _ Hrx)
      as (_ & _ & Htm' & Hw' & Hst').
    destruct (rxcallback_calls _ _ _ _ Hrx) as (_ & tr & Htr & Hcases).
    unfold before_listening.
    rewrite Hst', Hw', Htm', Htr, calculator_calls_app, Hcalc.
    repeat split; auto.
    destruct Hcases as [->|[->| ->]]; reflexivity.
  - unfold timer_fire.
    destruct (_ranging_broadcast_timer s) as [[p [|]]|] eqn:Hp.
    + intros Htask.
      destruct (subsequence_task_calls _ _ _ Htask) as (_ & Htr).
      destruct (decide (0 <= _ranging_broadcast_ss_num s
                          < Z.of_nat (length (_ranging_broadcast_ss_send_times s))))
        as [Hi|Hi]; [|by rewrite subsequence_task_outside_array in Htask].
      destruct (subsequence_task_in_range t s Hi)
        as (s2 & Hs2 & _ & _ & Htm2 & Hst2 & Hw2 & _).
      rewrite Htask in Hs2. injection Hs2 as <-.
      unfold before_listening.
      rewrite Hst2, Hw2, Htm2, Htr, calculator_calls_app, Hcalc.
      repeat split; auto.
      * intros p'. destruct (decide _); [discriminate|].
        rewrite Hp. discriminate.
      * unfold broadcast_calls. by destruct (decide _).
    + exfalso. by apply (Htm p).
    + intros [= <-]. repeat split; auto; intros p'; rewrite Hp; discriminate.
Qed.

(** X2.  Whatever inputs arrive after boot, the handlers of this file
    never leave the pair Idle, Broadcasting: the state is never
    TSTATE_TRANSITION_TO_ANC_FINAL, TSTATE_LISTENING or
    TSTATE_CALCULATE_RANGE, the listening-window index stays 0, the timer
    never runs the listening-window task and the range calculator is never
    entered. *)
Theorem listening_is_never_reached (ins : list input) (s' : tag) :
  run ins tag_boot = Some s' ->
  _tag_state s' ≠ TSTATE_TRANSITION_TO_ANC_FINAL ∧
  _tag_state s' ≠ TSTATE_LISTENING ∧
  _tag_state s' ≠ TSTATE_CALCULATE_RANGE ∧
  _ranging_listening_window_num s' = 0 ∧
  (∀ p, _ranging_broadcast_timer s' ≠ Some (p, task_ranging_listening_window)) ∧
  calculator_calls (trace s') = 0%nat.
Proof.
  intros Hrun.
  destruct (run_preserves before_listening step_before_listening
              ins tag_boot s' boot_before_listening Hrun)
    as (Hst & Hw & Htm & Hcalc).
  repeat split; auto; destruct Hst as [-> | ->]; discriminate.
Qed.

(** X1.  With between 1 and 256 broadcasts per event, every sequence of
    inputs after boot is handled without an index leaving its array: the
    run succeeds, the two arrays keep their declared lengths, the response
    count stays within its array and, while the timer runs the subsequence
    task, the subsequence index points into the send-time array. *)
Theorem handlers_never_leave_arrays (ins : list input) :
  1 <= NUM_RANGING_BROADCASTS <= 256 ->
  0 <= MAX_NUM_ANCHOR_RESPONSES ->
  ∃ s', run ins tag_boot = Some s' ∧
        length (_ranging_broadcast_ss_send_times s')
          = Z.to_nat NUM_RANGING_BROADCASTS ∧
        length (_anchor_response_times s')
          = Z.to_nat MAX_NUM_ANCHOR_RESPONSES ∧
        0 <= _anchor_response_count s' <= MAX_NUM_ANCHOR_RESPONSES ∧
        0 <= _ranging_broadcast_ss_num s' < 256 ∧
        (∀ p, _ranging_broadcast_timer s'
                = Some (p, task_ranging_broadcast_subsequence) ->
              _ranging_broadcast_ss_num s' < NUM_RANGING_BROADCASTS).
Proof.
  intros HN HM.
  destruct (run_invariant ins tag_boot HN) as (s' & Hrun & [Hs Hrt Hss _ Hrc] & Hc & Ht).
  { apply boot_invariant; lia. }
  exists s'. repeat split; auto; lia.
Qed.

(** ** Responses across events *)

Lemma keeps_responses_refl s : keeps_responses s s.
Proof. by split. Qed.

Lemma keeps_responses_same s s' :
  _anchor_response_count s' = _anchor_response_count s ->
  _anchor_response_times s' = _anchor_response_times s ->
  keeps_responses s s'.
Proof. intros Hc Hr. unfold keeps_responses. rewrite Hc, Hr. by split. Qed.

Lemma keeps_responses_trans s1 s2 s3 :
  0 <= _anchor_response_count s1 ->
  keeps_responses s1 s2 -> keeps_responses s2 s3 -> keeps_responses s1 s3.
Proof.
  intros H0 [Hc12 Hr12] [Hc23 Hr23]. split; [lia|].
  rewrite <- Hr12.
  replace (Z.to_nat (_anchor_response_count s1))
    with (Z.to_nat (_anchor_response_count s1)
            `min` Z.to_nat (_anchor_response_count s2))%nat by lia.
  rewrite <- !take_take. by rewrite Hr23.
Qed.

Lemma step_keeps_responses i s s' :
  MAX_NUM_ANCHOR_RESPONSES <= 255 ->
  before_listening s ->
  responses_bounded s ->
  step i s = Some s' ->
  responses_bounded s' ∧ keeps_responses s s'.
Proof.
  intros HM (Hst & _ & Htm & _) [Hlen Hc].
  destruct i as [|data|rxd rx|t]; cbn [step].
  - intros [= <-]. split; [by split|]. by apply keeps_responses_same.
  - intros [= <-]. unfold dw1000_tag_txcallback.
    destruct (event data);
      try (split; [by split|]; by apply keeps_responses_same).
    destruct Hst as [Hst|Hst]; rewrite Hst;
      (split; [by split|]; by apply keeps_responses_same).
  - destruct (decide (event rxd = DWT_SIG_RX_OKAY)) as [He|He].
    + destruct (decide (message_type (rx_frame rx) = MSG_TYPE_PP_NOSLOTS_ANC_FINAL))
        as [Hm|Hm].
      * destruct (decide (_anchor_response_count s >= MAX_NUM_ANCHOR_RESPONSES))
          as [Hfull|Hroom].
        -- rewrite rxcallback_full by done. intros [= <-].
           split; [by split|]. by apply keeps_responses_same.
        -- rewrite rxcallback_append by (done || lia). intros [= <-].
           assert (wrap8 (_anchor_response_count s + 1)
                   = _anchor_response_count s + 1) as Hw
             by (apply wrap8_small; lia).
           split; [split|split]; cbn; rewrite ?Hw, ?length_insert; try lia.
           by rewrite take_insert_ge by lia.
      * rewrite rxcallback_other_type by done. intros [= <-].
        split; [by split|]. by apply keeps_responses_same.
    + destruct (rx_needs_reconfigure (event rxd)) eqn:Hr.
      * rewrite rxcallback_error by done. intros [= <-].
        split; [by split|]. by apply keeps_responses_same.
      * rewrite rxcallback_other_event by done. intros [= <-].
        split; [by split|]. by apply keeps_responses_same.
  - unfold timer_fire.
    destruct (_ranging_broadcast_timer s) as [[p [|]]|] eqn:Hp.
    + intros Htask.
      destruct (decide (0 <= _ranging_broadcast_ss_num s
                          < Z.of_nat (length (_ranging_broadcast_ss_send_times s))))
        as [Hi|Hi]; [|by rewrite subsequence_task_outside_array in Htask].
      destruct (subsequence_task_in_range t s Hi)
        as (s2 & Hs2 & _ & _ & _ & _ & _ & Hc2 & Hr2 & _).
      rewrite Htask in Hs2. injection Hs2 as <-.
      split; [|by apply keeps_responses_same].
      unfold responses_bounded. by rewrite Hc2, Hr2.
    + exfalso. by apply (Htm p).
    + intros [= <-]. split; [by split|]. apply keeps_responses_refl.
Qed.

Lemma run_keeps_responses (ins : list input) :
  MAX_NUM_ANCHOR_RESPONSES <= 255 ->
  ∀ s s', before_listening s -> responses_bounded s ->
          run ins s = Some s' ->
          before_listening s' ∧ responses_bounded s' ∧ keeps_responses s s'.
Proof.
  intros HM. induction ins as [|i ins IH]; intros s s' Hb Hr.
  - intros [= <-]. split; [done|]. split; [done|]. apply keeps_responses_refl.
  - rewrite run_cons. destruct (step i s) as [s1|] eqn:H1; [|done].
    cbn [mbind option_bind]. intros Hrun.
    destruct (step_keeps_responses i s s1 HM Hb Hr H1) as [Hr1 Hk1].
    pose proof (step_before_listening i s s1 Hb H1) as Hb1.
    destruct (IH s1 s' Hb1 Hr1 Hrun) as (Hb' & Hr' & Hk').
    split; [done|]. split; [done|].
    apply (keeps_responses_trans s s1 s'); [apply Hr|done|done].
Qed.

Lemma boot_responses_bounded :
  0 <= MAX_NUM_ANCHOR_RESPONSES -> responses_bounded tag_boot.
Proof. intros HM. split; cbn; [apply length_replicate|lia]. Qed.

(** X3.  Responses are never given up.  From boot on, whatever inputs
    arrive (starts of new events included), the response count never
    goes down and the records below it are never overwritten: a later
    state holds every response an earlier state held.  The count stays at
    the bound once it is reached. *)
Theorem responses_are_kept_across_events (ins1 ins2 : list input) (s1 s2 : tag) :
  0 <= MAX_NUM_ANCHOR_RESPONSES <= 255 ->
  run ins1 tag_boot = Some s1 ->
  run ins2 s1 = Some s2 ->
  _anchor_response_count s1 <= _anchor_response_count s2
    <= MAX_NUM_ANCHOR_RESPONSES ∧
  take (Z.to_nat (_anchor_response_count s1)) (_anchor_response_times s2) =
    take (Z.to_nat (_anchor_response_count s1)) (_anchor_response_times s1).
Proof.
  intros HM H1 H2.
  destruct (run_keeps_responses ins1 ltac:(lia) tag_boot s1) as (Hb1 & Hr1 & _);
    [apply boot_before_listening|apply boot_responses_bounded; lia|done|].
  destruct (run_keeps_responses ins2 ltac:(lia) s1 s2 Hb1 Hr1 H2)
    as (_ & [_ Hc2] & [Hle Htake]).
  split; [lia|done].
Qed.

(** ** Before the first start *)

Lemma step_quiet i s s' :
  i ≠ StartRangingEvent -> quiet s -> step i s = Some s' -> quiet s'.
Proof.
  intros Hi (Hst & Htm & Hss & Hts & Htr).
  destruct i as [|data|rxd rx|t]; cbn [step]; [done| | |].
  - intros [= <-]. unfold dw1000_tag_txcallback.
    destruct (event data); try by repeat split.
    by rewrite Hst.
  - intros Hrx.
    destruct (rxcallback_keeps_broadcast_state _ _ _ _ Hrx)
      as (Hn' & Hts' & Htm' & _ & Hst').
    unfold quiet. rewrite Hn', Hts', Htm', Hst'.
    rewrite (only_subsequence_task_stores (RxCallback rxd rx) s s'); [done| |done].
    by intros (t & p & ? & _).
  - unfold timer_fire. rewrite Htm. by intros [= <-].
Qed.

(** X14.  Until [dw1000_tag_start_ranging_event] is called nothing is put
    on the air.  After boot, callbacks and timer fires in any number and
    order leave the machine Idle with the timer stopped, the send-time
    array all zero, and no store of a send time and no start of a
    transmission in the trace. *)
Theorem nothing_is_sent_before_start (ins : list input) (s' : tag) :
  Forall (λ i, i ≠ StartRangingEvent) ins ->
  run ins tag_boot = Some s' ->
  _tag_state s' = TSTATE_IDLE ∧
  _ranging_broadcast_timer s' = None ∧
  Forall (λ t, t = 0) (_ranging_broadcast_ss_send_times s') ∧
  stores_and_starts (trace s') = [].
Proof.
  intros Hins.
  assert (quiet tag_boot) as Hq.
  { repeat split. cbn. by apply Forall_replicate. }
  revert Hq. generalize tag_boot.
  induction Hins as [|i ins Hi _ IH]; intros s Hq.
  - intros [= <-]. by destruct Hq as (? & ? & ? & ? & ?).
  - rewrite run_cons. destruct (step i s) as [s1|] eqn:H1; [|done].
    cbn [mbind option_bind]. apply IH. by eapply step_quiet.
Qed.

(** ** What every trace and every send-time array looks like *)

Lemma send_time_shaped_zero : send_time_shaped 0.
Proof. split; [lia|reflexivity]. Qed.

Lemma send_time_shaped_scheduled t : send_time_shaped (scheduled_send_time t).
Proof.
  split; [apply scheduled_send_time_range|].
  rewrite scheduled_send_time_mul.
  replace (2 * (wrap32 (t + DW_DELAY_FROM_PKT_LEN sizeof_pp_tag_poll) / 2) * 256)
    with (wrap32 (t + DW_DELAY_FROM_PKT_LEN sizeof_pp_tag_poll) / 2 * 512) by lia.
  apply Z.mod_mul. lia.
Qed.

Lemma poll_constants_stamp pkt subseq :
  poll_constants pkt -> poll_constants (stamp pkt subseq).
Proof. by intros (? & ? & ? & ?). Qed.

Lemma broadcast_calls_in_order slot t pkt :
  poll_constants pkt -> Forall action_in_order (broadcast_calls slot t pkt).
Proof.
  intros Hpkt. unfold broadcast_calls.
  pose proof (send_time_shaped_scheduled t).
  case_decide; cbn [app];
    repeat first [apply List.Forall_nil | apply List.Forall_cons; [by cbn|]].
Qed.

Lemma boot_in_order : in_order tag_boot.
Proof.
  split; [by repeat split|]. split; [constructor|].
  apply Forall_replicate, send_time_shaped_zero.
Qed.

Lemma step_in_order i s s' : in_order s -> step i s = Some s' -> in_order s'.
Proof.
  intros (Hpkt & Htr & Hts).
  destruct i as [|data|rxd rx|t]; cbn [step].
  - intros [= <-]. split; [done|]. split; [done|].
    apply Forall_replicate, send_time_shaped_zero.
  - intros [= <-]. unfold dw1000_tag_txcallback.
    destruct (event data); try by (split; [|split]).
    destruct (_tag_state s); by (split; [|split]).
  - intros Hrx.
    destruct (rxcallback_keeps_broadcast_state _ _ _ _ Hrx) as (_ & Hts' & _).
    destruct (rxcallback_calls _ _ _ _ Hrx) as (Hpkt' & tr & Htr' & Hcases).
    unfold in_order. rewrite Hpkt', Hts', Htr'.
    split; [done|]. split; [|done].
    apply Forall_app. split; [done|].
    destruct Hcases as [->|[->| ->]];
      repeat first [apply List.Forall_nil | apply List.Forall_cons; [by cbn|]].
  - unfold timer_fire.
    destruct (_ranging_broadcast_timer s) as [[p [|]]|] eqn:Hp.
    + intros Htask.
      destruct (subsequence_task_calls _ _ _ Htask) as (Hpkt' & Htr').
      destruct (decide (0 <= _ranging_broadcast_ss_num s
                          < Z.of_nat (length (_ranging_broadcast_ss_send_times s))))
        as [Hi|Hi]; [|by rewrite subsequence_task_outside_array in Htask].
      destruct (subsequence_task_in_range t s Hi) as (s2 & Hs2 & Hts2 & _).
      rewrite Htask in Hs2. injection Hs2 as <-.
      assert (poll_constants (pp_tag_poll_pkt s')) as Hc'
        by (rewrite Hpkt'; by apply poll_constants_stamp).
      unfold in_order. rewrite Htr', Hts2.
      split; [done|]. split.
      * apply Forall_app. split; [done|]. by apply broadcast_calls_in_order.
      * apply Forall_insert; [done|]. apply send_time_shaped_scheduled.
    + intros [= <-].
      destruct (listening_window_task_calls s) as (Hpkt' & Htr').
      unfold in_order. rewrite Hpkt', Htr'.
      split; [done|]. split.
      * apply Forall_app. split; [done|].
        case_decide;
          repeat first [apply List.Forall_nil | apply List.Forall_cons; [by cbn|]].
      * unfold ranging_listening_window_task. by case_decide.
    + intros [= <-]. by (split; [|split]).
Qed.

(** X11.  The poll packet keeps its template.  Every packet the handlers
    hand to the radio after boot is written with the length of the poll
    packet at offset 0 and carries the message type TAG_POLL, the last
    subsequence NUM_RANGING_BROADCASTS - 1 and the window and slot
    durations of the template; and every transmission is started as a
    delayed one. *)
Theorem poll_packets_keep_the_template (ins : list input) (s' : tag) :
  run ins tag_boot = Some s' ->
  poll_constants (pp_tag_poll_pkt s') ∧
  (∀ len pkt offset,
     Dwt_writetxdata len pkt offset ∈ trace s' ->
     len = sizeof_pp_tag_poll ∧ offset = 0 ∧ poll_constants pkt) ∧
  (∀ delayed response_expected,
     Dwt_starttx delayed response_expected ∈ trace s' -> delayed = true).
Proof.
  intros Hrun.
  destruct (run_preserves in_order step_in_order ins tag_boot s' boot_in_order Hrun)
    as (Hpkt & Htr & _).
  rewrite list.Forall_forall in Htr.
  split; [done|]. split.
  - intros len pkt offset Hin. apply (Htr _ Hin).
  - intros d r Hin. apply (Htr _ Hin).
Qed.

(** X12.  Every entry of the send-time array, in every state reached
    from boot, is a multiple of 2^9 below 2^40: the low byte is the
    padding of the 32-bit time and bit 8 is the cleared bit 0 of that
    time.  The same holds of every value a handler has ever stored. *)
Theorem send_times_keep_their_shape (ins : list input) (s' : tag) :
  run ins tag_boot = Some s' ->
  (∀ (i : nat) (v : Z),
     _ranging_broadcast_ss_send_times s' !! i = Some v ->
     0 <= v < 2 ^ 40 ∧ v mod 512 = 0) ∧
  (∀ slot v,
     Store_send_time slot v ∈ trace s' -> 0 <= v < 2 ^ 40 ∧ v mod 512 = 0).
Proof.
  intros Hrun.
  destruct (run_preserves in_order step_in_order ins tag_boot s' boot_in_order Hrun)
    as (_ & Htr & Hts).
  rewrite list.Forall_forall in Htr. rewrite Forall_lookup in Hts.
  split.
  - intros i v Hv. apply (Hts i v Hv).
  - intros slot v Hin. apply (Htr _ Hin).
Qed.

(** ** Responses in the order of their arrival *)

Lemma run_rx_input_cons p ps s :
  run (rx_input <$> (p :: ps)) s =
    s' ← dw1000_tag_rxcallback p.1 p.2 s; run (rx_input <$> ps) s'.
Proof. reflexivity. Qed.

Lemma run_anc_finals_room (ps : list (dwt_callback_data_t * rx_registers)) :
  ∀ s : tag,
    Forall good_anc_final ps ->
    MAX_NUM_ANCHOR_RESPONSES <= 255 ->
    length (_anchor_response_times s) = Z.to_nat MAX_NUM_ANCHOR_RESPONSES ->
    0 <= _anchor_response_count s ->
    _anchor_response_count s + Z.of_nat (length ps) <= MAX_NUM_ANCHOR_RESPONSES ->
    ∃ s', run (rx_input <$> ps) s = Some s' ∧
          _anchor_response_count s' =
            _anchor_response_count s + Z.of_nat (length ps) ∧
          _anchor_response_times s' =
            take (Z.to_nat (_anchor_response_count s)) (_anchor_response_times s)
              ++ ((λ p, response_of p.2) <$> ps)
              ++ drop (Z.to_nat (_anchor_response_count s) + length ps)
                      (_anchor_response_times s) ∧
          _tag_state s' = _tag_state s ∧
          _ranging_broadcast_timer s' = _ranging_broadcast_timer s.
Proof.
  induction ps as [|p ps IH]; intros s Hgood HM Hlen Hc Hroom.
  - exists s. cbn [length] in *. split; [done|]. split; [lia|].
    rewrite Nat.add_0_r. cbn [fmap list_fmap app].
    by rewrite take_drop.
  - cbn [length] in Hroom.
    apply Forall_cons_1 in Hgood as [[He Hm] Hgood].
    rewrite run_rx_input_cons, rxcallback_append by (done || lia).
    cbn [mbind option_bind].
    set (s1 := set_response_count _ _).
    assert (_anchor_response_count s1 = _anchor_response_count s + 1) as Hc1.
    { subst s1. cbn. apply wrap8_small. lia. }
    destruct (IH s1) as (s' & Hrun & Hc' & Hr' & Hst' & Htm'); [done|done| |lia|lia|].
    { subst s1. cbn. by rewrite length_insert. }
    exists s'. split; [done|]. split; [cbn [length]; lia|].
    split; [|by rewrite Hst', Htm'].
    rewrite Hr', Hc1. subst s1.
    cbn [set_response_count set_response_times _anchor_response_times].
    replace (Z.to_nat (_anchor_response_count s + 1))
      with (S (Z.to_nat (_anchor_response_count s))) by lia.
    rewrite insert_take_snoc by lia.
    rewrite drop_insert_lt by lia.
    rewrite <- app_assoc. cbn [length fmap list_fmap app].
    replace (S (Z.to_nat (_anchor_response_count s)) + length ps)%nat
      with (Z.to_nat (_anchor_response_count s) + S (length ps))%nat by lia.
    reflexivity.
Qed.

Lemma run_anc_finals_full (ps : list (dwt_callback_data_t * rx_registers)) :
  ∀ s : tag,
    Forall good_anc_final ps ->
    _anchor_response_count s >= MAX_NUM_ANCHOR_RESPONSES ->
    ∃ s', run (rx_input <$> ps) s = Some s' ∧
          _anchor_response_count s' = _anchor_response_count s ∧
          _anchor_response_times s' = _anchor_response_times s ∧
          _tag_state s' = _tag_state s ∧
          _ranging_broadcast_timer s' = _ranging_broadcast_timer s.
Proof.
  induction ps as [|p ps IH]; intros s Hgood Hfull.
  - by exists s.
  - apply Forall_cons_1 in Hgood as [[He Hm] Hgood].
    rewrite run_rx_input_cons, rxcallback_full by done.
    cbn [mbind option_bind].
    destruct (IH (rx_reads p.1 s) Hgood Hfull) as (s' & Hrun & ? & ? & ? & ?).
    by exists s'.
Qed.

Lemma run_anc_finals_from_empty
    (ps : list (dwt_callback_data_t * rx_registers)) (s : tag) :
  Forall good_anc_final ps ->
  0 <= MAX_NUM_ANCHOR_RESPONSES <= 255 ->
  length (_anchor_response_times s) = Z.to_nat MAX_NUM_ANCHOR_RESPONSES ->
  _anchor_response_count s = 0 ->
  ∃ s', run (rx_input <$> ps) s = Some s' ∧
        _anchor_response_count s' =
          Z.min (Z.of_nat (length ps)) MAX_NUM_ANCHOR_RESPONSES ∧
        _anchor_response_times s' =
          ((λ p, response_of p.2)
             <$> take (Z.to_nat MAX_NUM_ANCHOR_RESPONSES) ps)
            ++ drop (length ps `min` Z.to_nat MAX_NUM_ANCHOR_RESPONSES)
                    (_anchor_response_times s).
Proof.
  intros Hgood HM Hlen Hc0.
  set (m := Z.to_nat MAX_NUM_ANCHOR_RESPONSES).
  assert (run (rx_input <$> ps) s =
            s' ← run (rx_input <$> take m ps) s; run (rx_input <$> drop m ps) s')
    as -> by (by rewrite <- run_app, <- fmap_app, take_drop).
  destruct (run_anc_finals_room (take m ps) s)
    as (s1 & Hrun1 & Hc1 & Hr1 & _); [by apply Forall_take|lia|done|lia| |].
  { rewrite length_take. lia. }
  rewrite Hrun1. cbn [mbind option_bind].
  rewrite Hc0 in Hc1, Hr1. rewrite length_take in Hc1, Hr1.
  change (Z.to_nat 0) with 0%nat in Hr1.
  cbn [take app Nat.add] in Hr1. rewrite Z.add_0_l in Hc1.
  destruct (decide (length ps <= m)%nat) as [Hle|Hgt].
  - rewrite (drop_ge ps m) by done.
    exists s1. split; [done|]. split; [lia|].
    by rewrite Hr1, Nat.min_comm.
  - destruct (run_anc_finals_full (drop m ps) s1)
      as (s' & Hrun2 & Hc2 & Hr2 & _); [by apply Forall_drop|lia|].
    exists s'. split; [done|]. split; [lia|].
    by rewrite Hr2, Hr1, Nat.min_comm.
Qed.

(** X4.  Responses are stored in the order of their arrival, and the
    first ones win.  Starting from an empty collection, a burst of good
    ANC_FINAL frames leaves the count at the smaller of the number of
    frames and MAX_NUM_ANCHOR_RESPONSES, the records of the first
    MAX_NUM_ANCHOR_RESPONSES frames in the leading slots, in order, and the
    slots behind them as they were; the frames beyond the bound leave no
    mark.  (The bound has to fit the 8-bit count: at most 255.) *)
Theorem responses_are_stored_in_arrival_order
    (ps : list (dwt_callback_data_t * rx_registers)) (s : tag) :
  Forall good_anc_final ps ->
  0 <= MAX_NUM_ANCHOR_RESPONSES <= 255 ->
  length (_anchor_response_times s) = Z.to_nat MAX_NUM_ANCHOR_RESPONSES ->
  _anchor_response_count s = 0 ->
  ∃ s', run (rx_input <$> ps) s = Some s' ∧
        _anchor_response_count s' =
          Z.min (Z.of_nat (length ps)) MAX_NUM_ANCHOR_RESPONSES ∧
        _anchor_response_times s' =
          ((λ p, response_of p.2)
             <$> take (Z.to_nat MAX_NUM_ANCHOR_RESPONSES) ps)
            ++ drop (length ps `min` Z.to_nat MAX_NUM_ANCHOR_RESPONSES)
                    (_anchor_response_times s).
Proof. apply run_anc_finals_from_empty. Qed.

(** ** The listening phase, for any number of windows *)

Lemma window_settings_calls_cons first n :
  0 < n ->
  window_settings_calls first n =
    Dw1000_set_ranging_listening_window_settings first
      :: window_settings_calls (first + 1) (n - 1).
Proof.
  intros Hn. unfold window_settings_calls.
  rewrite seqZ_cons by done. reflexivity.
Qed.

Lemma window_settings_calls_last first (n : nat) :
  list.last (window_settings_calls first (Z.of_nat (S n))) =
    Some (Dw1000_set_ranging_listening_window_settings (first + Z.of_nat n)).
Proof.
  unfold window_settings_calls. rewrite seqZ_S, fmap_app. apply last_snoc.
Qed.

Lemma run_window_fires (ts : list Z) :
  ∀ (s : tag) (p : Z),
    _ranging_broadcast_timer s = Some (p, task_ranging_listening_window) ->
    0 <= _ranging_listening_window_num s ->
    _ranging_listening_window_num s + Z.of_nat (length ts)
      <= NUM_RANGING_LISTENING_WINDOWS ->
    NUM_RANGING_LISTENING_WINDOWS <= 255 ->
    ∃ s', run (TimerFire <$> ts) s = Some s' ∧
          _ranging_listening_window_num s' =
            _ranging_listening_window_num s + Z.of_nat (length ts) ∧
          _ranging_broadcast_timer s' = _ranging_broadcast_timer s ∧
          _tag_state s' = _tag_state s ∧
          _anchor_response_count s' = _anchor_response_count s ∧
          _anchor_response_times s' = _anchor_response_times s ∧
          _ranging_broadcast_ss_send_times s' = _ranging_broadcast_ss_send_times s ∧
          trace s' =
            trace s ++ window_settings_calls (_ranging_listening_window_num s)
                         (Z.of_nat (length ts)).
Proof.
  induction ts as [|t ts IH]; intros s p Hp Hw Hsum HW.
  - exists s. cbn [length]. rewrite Z.add_0_r.
    unfold window_settings_calls. rewrite seqZ_nil by done.
    cbn [fmap list_fmap]. by rewrite app_nil_r.
  - cbn [length] in Hsum.
    rewrite run_timer_fire_cons, (timer_fire_listening t p s Hp).
    cbn [mbind option_bind].
    rewrite listening_window_task_next by lia.
    rewrite wrap8_small by lia.
    set (s1 := set_window_num _ _).
    destruct (IH s1 p) as (s' & Hrun & Hw' & Htm' & Hst' & Hc' & Hr' & Hts' & Htr');
      [done|subst s1; cbn; lia|subst s1; cbn; lia|done|].
    exists s'. split; [done|].
    rewrite Hw', Htm', Hst', Hc', Hr', Hts', Htr'. subst s1.
    cbn [set_window_num call _ranging_listening_window_num
         _ranging_broadcast_timer _tag_state _anchor_response_count
         _anchor_response_times _ranging_broadcast_ss_send_times trace length].
    repeat split; try done; [lia|].
    rewrite <- app_assoc. f_equal.
    rewrite (window_settings_calls_cons (_ranging_listening_window_num s)) by lia.
    cbn [app]. do 2 f_equal. lia.
Qed.

Lemma run_window_fires_complete (l : tag) (p : Z) (ts : list Z) :
  0 <= NUM_RANGING_LISTENING_WINDOWS <= 255 ->
  _ranging_broadcast_timer l = Some (p, task_ranging_listening_window) ->
  _ranging_listening_window_num l = 0 ->
  Z.of_nat (length ts) = NUM_RANGING_LISTENING_WINDOWS + 1 ->
  ∃ s', run (TimerFire <$> ts) l = Some s' ∧
        _tag_state s' = TSTATE_CALCULATE_RANGE ∧
        _ranging_broadcast_timer s' = None ∧
        trace s' =
          trace l ++ window_settings_calls 0 NUM_RANGING_LISTENING_WINDOWS
            ++ [Dwt_forcetrxoff; Enter_calculate_ranges].
Proof.
  intros HW Hp Hw0 Hlen.
  set (w := Z.to_nat NUM_RANGING_LISTENING_WINDOWS).
  assert (run (TimerFire <$> ts) l =
            s' ← run (TimerFire <$> take w ts) l; run (TimerFire <$> drop w ts) s')
    as -> by (by rewrite <- run_app, <- fmap_app, take_drop).
  destruct (run_window_fires (take w ts) l p Hp)
    as (s1 & Hrun & Hw1 & Htm1 & _ & _ & _ & _ & Htr1);
    [lia|rewrite length_take; lia|lia|].
  rewrite Hrun. cbn [mbind option_bind].
  rewrite length_take, Hw0 in Hw1, Htr1.
  replace (0 + Z.of_nat (w `min` length ts)) with NUM_RANGING_LISTENING_WINDOWS
    in Hw1 by lia.
  replace (Z.of_nat (w `min` length ts)) with NUM_RANGING_LISTENING_WINDOWS
    in Htr1 by lia.
  destruct (drop w ts) as [|t [|t' rest]] eqn:Hdrop.
  - apply (f_equal length) in Hdrop. rewrite length_drop in Hdrop.
    cbn in Hdrop. lia.
  - cbn [fmap list_fmap run step].
    rewrite (timer_fire_listening t p s1) by (by rewrite Htm1).
    cbn [mbind option_bind].
    rewrite listening_window_task_last by done.
    eexists. split; [reflexivity|]. cbn.
    rewrite Htr1, <- !app_assoc. done.
  - apply (f_equal length) in Hdrop. rewrite length_drop in Hdrop.
    cbn in Hdrop. lia.
Qed.

(** X5.  The listening phase lasts one timer fire more than there are
    windows (for a window count that fits the 8-bit index).  With the
    timer on the listening-window task and the window index at 0, the
    first NUM_RANGING_LISTENING_WINDOWS fires apply the settings of
    windows 0, 1, 2, ... in order, add nothing else to the trace and leave
    the tag state and the timer as they are; the fire after them applies
    no settings, stops the timer, switches the radio off,
    enters TSTATE_CALCULATE_RANGE and calls the range calculator.  The
    task does not look at the tag state. *)
Theorem listening_lasts_one_fire_more_than_windows (l : tag) (p : Z) (ts : list Z) :
  0 <= NUM_RANGING_LISTENING_WINDOWS <= 255 ->
  _ranging_broadcast_timer l = Some (p, task_ranging_listening_window) ->
  _ranging_listening_window_num l = 0 ->
  (Z.of_nat (length ts) <= NUM_RANGING_LISTENING_WINDOWS ->
   ∃ s', run (TimerFire <$> ts) l = Some s' ∧
         _tag_state s' = _tag_state l ∧
         _ranging_listening_window_num s' = Z.of_nat (length ts) ∧
         _ranging_broadcast_timer s' = _ranging_broadcast_timer l ∧
         trace s' = trace l ++ window_settings_calls 0 (Z.of_nat (length ts))) ∧
  (Z.of_nat (length ts) = NUM_RANGING_LISTENING_WINDOWS + 1 ->
   ∃ s', run (TimerFire <$> ts) l = Some s' ∧
         _tag_state s' = TSTATE_CALCULATE_RANGE ∧
         _ranging_broadcast_timer s' = None ∧
         trace s' =
           trace l ++ window_settings_calls 0 NUM_RANGING_LISTENING_WINDOWS
             ++ [Dwt_forcetrxoff; Enter_calculate_ranges]).
Proof.
  intros HW Hp Hw0. split.
  - intros Hlen.
    destruct (run_window_fires ts l p Hp)
      as (s' & Hrun & Hw' & Htm' & Hst' & _ & _ & _ & Htr'); [lia|lia|lia|].
    rewrite Hw0 in Hw', Htr'.
    exists s'. repeat split; done || lia.
  - intros Hlen. by apply (run_window_fires_complete l p).
Qed.

(** X6.  A window count that does not fit the 8-bit window index (above
    255, or negative) is never reached by the index: once the timer runs
    the listening-window task it runs it for ever.  However often the
    timer fires, the timer is not stopped, the tag state does not change
    and the range calculator is not entered. *)
Theorem listening_never_ends_beyond_255_windows (l : tag) (p : Z) (ts : list Z) :
  NUM_RANGING_LISTENING_WINDOWS < 0 ∨ 255 < NUM_RANGING_LISTENING_WINDOWS ->
  _ranging_broadcast_timer l = Some (p, task_ranging_listening_window) ->
  0 <= _ranging_listening_window_num l < 256 ->
  ∃ s', run (TimerFire <$> ts) l = Some s' ∧
        _ranging_broadcast_timer s' = Some (p, task_ranging_listening_window) ∧
        _tag_state s' = _tag_state l ∧
        calculator_calls (trace s') = calculator_calls (trace l) ∧
        0 <= _ranging_listening_window_num s' < 256.
Proof.
  intros HW. revert l.
  induction ts as [|t ts IH]; intros l Hp Hw.
  - by exists l.
  - rewrite run_timer_fire_cons, (timer_fire_listening t p l Hp).
    cbn [mbind option_bind].
    rewrite listening_window_task_next by lia.
    set (l1 := set_window_num _ _).
    destruct (IH l1) as (s' & Hrun & Htm' & Hst' & Hcalc' & Hw').
    { done. }
    { subst l1. cbn. apply wrap8_range. }
    exists s'. split; [done|]. split; [done|]. split; [done|]. split; [|done].
    rewrite Hcalc'. subst l1. cbn [set_window_num call trace].
    rewrite calculator_calls_app. cbn. lia.
Qed.

(** X7.  A receive error applies the settings of the window after the one
    that is being listened to.  After k fires of the window timer
    (1 <= k <= NUM_RANGING_LISTENING_WINDOWS) the settings last applied
    are those of window k - 1 while the window index already stands at k;
    a receive error at that point applies the settings of window k (for
    k = NUM_RANGING_LISTENING_WINDOWS, of a window the window task itself
    never applies) and leaves the index at k. *)
Theorem rx_error_applies_settings_of_the_next_window
    (l : tag) (p : Z) (ts : list Z) (rxd : dwt_callback_data_t) (rx : rx_registers) :
  NUM_RANGING_LISTENING_WINDOWS <= 255 ->
  _ranging_broadcast_timer l = Some (p, task_ranging_listening_window) ->
  _ranging_listening_window_num l = 0 ->
  1 <= Z.of_nat (length ts) <= NUM_RANGING_LISTENING_WINDOWS ->
  event rxd ∈ receive_errors ->
  ∃ s1 s2,
    run (TimerFire <$> ts) l = Some s1 ∧
    list.last (trace s1) =
      Some (Dw1000_set_ranging_listening_window_settings
              (Z.of_nat (length ts) - 1)) ∧
    _ranging_listening_window_num s1 = Z.of_nat (length ts) ∧
    dw1000_tag_rxcallback rxd rx s1 = Some s2 ∧
    trace s2 =
      trace s1 ++ [Dw1000_set_ranging_listening_window_settings
                     (Z.of_nat (length ts))] ∧
    _ranging_listening_window_num s2 = Z.of_nat (length ts).
Proof.
  intros HW Hp Hw0 Hk He.
  destruct (run_window_fires ts l p Hp)
    as (s1 & Hrun & Hw1 & _ & _ & _ & _ & _ & Htr1); [lia|lia|lia|].
  rewrite Hw0, Z.add_0_l in Hw1. rewrite Hw0 in Htr1.
  exists s1. eexists. split; [done|]. split.
  { rewrite Htr1. destruct (length ts) as [|n] eqn:Hn; [lia|].
    rewrite last_app, window_settings_calls_last. cbn. f_equal. f_equal. lia. }
  split; [done|].
  split; [by apply rxcallback_error, receive_errors_reconfigure|].
  cbn. by rewrite Hw1.
Qed.

(** ** Broadcast bursts, complete or not *)

Lemma run_broadcasts_upto (ts : list Z) :
  ∀ (s : tag) (p : Z),
    NUM_RANGING_BROADCASTS <= 256 ->
    length (_ranging_broadcast_ss_send_times s) = Z.to_nat NUM_RANGING_BROADCASTS ->
    0 <= _ranging_broadcast_ss_num s < 256 ->
    _ranging_broadcast_ss_num s + Z.of_nat (length ts) <= NUM_RANGING_BROADCASTS ->
    _ranging_broadcast_timer s = Some (p, task_ranging_broadcast_subsequence) ->
    ∃ s', run (TimerFire <$> ts) s = Some s' ∧
          _ranging_broadcast_ss_send_times s' =
            take (Z.to_nat (_ranging_broadcast_ss_num s))
                 (_ranging_broadcast_ss_send_times s)
              ++ (scheduled_send_time <$> ts)
              ++ drop (Z.to_nat (_ranging_broadcast_ss_num s) + length ts)
                      (_ranging_broadcast_ss_send_times s) ∧
          _ranging_broadcast_ss_num s' =
            wrap8 (_ranging_broadcast_ss_num s + Z.of_nat (length ts)) ∧
          (_ranging_broadcast_ss_num s + Z.of_nat (length ts)
             < NUM_RANGING_BROADCASTS ->
           _ranging_broadcast_timer s' = _ranging_broadcast_timer s) ∧
          (ts ≠ [] ->
           _ranging_broadcast_ss_num s + Z.of_nat (length ts)
             = NUM_RANGING_BROADCASTS ->
           _ranging_broadcast_timer s' = None) ∧
          _tag_state s' = _tag_state s ∧
          _ranging_listening_window_num s' = _ranging_listening_window_num s ∧
          _anchor_response_count s' = _anchor_response_count s ∧
          _anchor_response_times s' = _anchor_response_times s ∧
          pp_tag_poll_pkt s' =
            final_packet (pp_tag_poll_pkt s) (_ranging_broadcast_ss_num s) ts ∧
          trace s' =
            trace s ++ broadcast_run_calls (pp_tag_poll_pkt s)
                         (_ranging_broadcast_ss_num s) ts.
Proof.
  induction ts as [|t ts IH]; intros s p HN Hlen Hj Hsum Hp.
  - exists s. cbn [length fmap list_fmap run final_packet broadcast_run_calls app].
    rewrite Z.add_0_r, Nat.add_0_r, take_drop, app_nil_r, wrap8_small by done.
    repeat split; done.
  - cbn [length] in Hsum.
    rewrite run_timer_fire_cons. unfold timer_fire. rewrite Hp.
    destruct (subsequence_task_in_range t s)
      as (s1 & Hs1 & Hts1 & Hn1 & Htm1 & Hst1 & Hw1 & Hc1 & Hr1 & _); [lia|].
    destruct (subsequence_task_calls t s s1 Hs1) as (Hpkt1 & Htr1).
    rewrite Hs1. cbn [mbind option_bind].
    assert (<[Z.to_nat (_ranging_broadcast_ss_num s) := scheduled_send_time t]>
              (_ranging_broadcast_ss_send_times s)
            = take (Z.to_nat (_ranging_broadcast_ss_num s))
                   (_ranging_broadcast_ss_send_times s)
                ++ scheduled_send_time t
                :: drop (S (Z.to_nat (_ranging_broadcast_ss_num s)))
                        (_ranging_broadcast_ss_send_times s)) as Hins
      by (apply insert_take_drop; lia).
    destruct ts as [|t' ts'].
    + exists s1. split; [done|].
      cbn [length fmap list_fmap final_packet broadcast_run_calls app].
      rewrite Hts1, Hn1, Htm1, Hst1, Hw1, Hc1, Hr1, Htr1, Hpkt1, Hins, app_nil_r.
      rewrite Nat.add_1_r.
      repeat split; try done.
      * intros Hlt. rewrite decide_False by lia. done.
      * intros _ Heq. rewrite decide_True by lia. done.
    + cbn [length] in Hsum, IH.
      assert (_ranging_broadcast_ss_num s1 = _ranging_broadcast_ss_num s + 1) as Hn1'.
      { rewrite Hn1. apply wrap8_small. lia. }
      rewrite decide_False in Htm1 by lia.
      destruct (IH s1 p)
        as (s' & Hrun & Hts' & Hn' & Hlt' & Heq' & Hst' & Hw' & Hc' & Hr' & Hpkt' & Htr');
        [done|by rewrite Hts1, length_insert|lia|lia|by rewrite Htm1|].
      exists s'. split; [done|].
      rewrite Hts', Hn', Hst', Hw', Hc', Hr', Hpkt', Htr'.
      rewrite Hn1', Hts1, Hst1, Hw1, Hc1, Hr1, Htr1, Hpkt1.
      replace (Z.to_nat (_ranging_broadcast_ss_num s + 1))
        with (S (Z.to_nat (_ranging_broadcast_ss_num s))) by lia.
      rewrite insert_take_snoc, drop_insert_lt by lia.
      cbn [length fmap list_fmap final_packet broadcast_run_calls].
      split.
      { rewrite <- app_assoc. cbn [app].
        replace (S (Z.to_nat (_ranging_broadcast_ss_num s)) + S (length ts'))%nat
          with (Z.to_nat (_ranging_broadcast_ss_num s) + S (S (length ts')))%nat
          by lia.
        reflexivity. }
      split; [f_equal; lia|].
      split.
      { intros Hlt. rewrite Hlt', Htm1 by lia. done. }
      split.
      { intros _ Heq. apply Heq'; [done|lia]. }
      repeat split; try done.
      by rewrite <- app_assoc.
Qed.

Lemma stamped_packets_lookup (ts : list Z) :
  ∀ (pkt : pp_tag_poll) (slot : Z) (i : nat) (q : pp_tag_poll),
    stamped_packets pkt slot ts !! i = Some q ->
    subsequence q = slot + Z.of_nat i ∧
    seqNum q = (seqNum pkt + Z.of_nat i + 1) mod 256 ∧
    poll_message_type q = poll_message_type pkt ∧
    reply_after_subsequence q = reply_after_subsequence pkt ∧
    anchor_reply_window_in_us q = anchor_reply_window_in_us pkt ∧
    anchor_reply_slot_time_in_us q = anchor_reply_slot_time_in_us pkt.
Proof.
  induction ts as [|t ts IH]; intros pkt slot i q; [done|].
  destruct i as [|i]; cbn [stamped_packets lookup list_lookup].
  - intros [= <-]. cbn. unfold wrap8. change (2 ^ 8) with 256.
    repeat split; f_equal; lia.
  - intros Hq. destruct (IH _ _ _ _ Hq) as (Hs & Hn & Hm & Hr & Hw & Hsl).
    cbn [stamp seqNum poll_message_type reply_after_subsequence
         anchor_reply_window_in_us anchor_reply_slot_time_in_us] in *.
    repeat split; try done; [lia|].
    rewrite Hn. unfold wrap8. change (2 ^ 8) with 256.
    rewrite <- Z.add_assoc, Z.add_mod_idemp_l by lia.
    f_equal. lia.
Qed.

Lemma written_packets_broadcast_calls slot t pkt :
  written_packets (broadcast_calls slot t pkt) = [pkt].
Proof. unfold broadcast_calls. by case_decide. Qed.

Lemma written_packets_broadcast_run (ts : list Z) :
  ∀ pkt slot,
    written_packets (broadcast_run_calls pkt slot ts) = stamped_packets pkt slot ts.
Proof.
  induction ts as [|t ts IH]; intros pkt slot; [done|].
  cbn [broadcast_run_calls stamped_packets].
  by rewrite written_packets_app, written_packets_broadcast_calls, IH.
Qed.

Lemma start_ready_for_broadcasts (s : tag) :
  length (_ranging_broadcast_ss_send_times s) = Z.to_nat NUM_RANGING_BROADCASTS ->
  let s0 := dw1000_tag_start_ranging_event s in
  length (_ranging_broadcast_ss_send_times s0) = Z.to_nat NUM_RANGING_BROADCASTS ∧
  _ranging_broadcast_ss_send_times s0
    = replicate (Z.to_nat NUM_RANGING_BROADCASTS) 0 ∧
  _ranging_broadcast_ss_num s0 = 0 ∧
  _ranging_broadcast_timer s0 =
    Some (RANGING_BROADCASTS_PERIOD_US, task_ranging_broadcast_subsequence) ∧
  _tag_state s0 = TSTATE_BROADCASTS ∧
  pp_tag_poll_pkt s0 = pp_tag_poll_pkt s ∧
  trace s0 = trace s.
Proof.
  intros Hlen. cbn. rewrite length_replicate, Hlen. done.
Qed.

(** X10.  The packets of a burst are numbered in order.  After a start,
    the k-th timer fire (k = 0, 1, ...; at most NUM_RANGING_BROADCASTS
    fires) hands the radio a poll packet whose subsequence field is k and
    whose sequence number is the one before the start plus k + 1, modulo
    256; the other fields are those of the template. *)
Theorem broadcast_packets_are_numbered_in_order (ts : list Z) (s : tag) :
  1 <= NUM_RANGING_BROADCASTS <= 256 ->
  length (_ranging_broadcast_ss_send_times s) = Z.to_nat NUM_RANGING_BROADCASTS ->
  Z.of_nat (length ts) <= NUM_RANGING_BROADCASTS ->
  ∃ s' pkts,
    run (StartRangingEvent :: (TimerFire <$> ts)) s = Some s' ∧
    written_packets (trace s') = written_packets (trace s) ++ pkts ∧
    length pkts = length ts ∧
    ∀ (k : nat) (q : pp_tag_poll),
      pkts !! k = Some q ->
      subsequence q = Z.of_nat k ∧
      seqNum q = (seqNum (pp_tag_poll_pkt s) + Z.of_nat k + 1) mod 256 ∧
      poll_message_type q = poll_message_type (pp_tag_poll_pkt s) ∧
      reply_after_subsequence q = reply_after_subsequence (pp_tag_poll_pkt s) ∧
      anchor_reply_window_in_us q = anchor_reply_window_in_us (pp_tag_poll_pkt s) ∧
      anchor_reply_slot_time_in_us q
        = anchor_reply_slot_time_in_us (pp_tag_poll_pkt s).
Proof.
  intros HN Hlen Hts.
  destruct (start_ready_for_broadcasts s Hlen)
    as (Hlen0 & _ & Hn0 & Hp0 & _ & Hpkt0 & Htr0).
  destruct (run_broadcasts_upto ts (dw1000_tag_start_ranging_event s)
              RANGING_BROADCASTS_PERIOD_US)
    as (s' & Hrun & _ & _ & _ & _ & _ & _ & _ & _ & _ & Htr');
    [lia|done|rewrite Hn0; lia|rewrite Hn0; lia|done|].
  rewrite Hn0, Hpkt0, Htr0 in Htr'.
  exists s', (stamped_packets (pp_tag_poll_pkt s) 0 ts).
  split; [by rewrite run_start_cons|].
  split; [by rewrite Htr', written_packets_app, written_packets_broadcast_run|].
  split.
  { clear. generalize (pp_tag_poll_pkt s) 0.
    induction ts as [|t ts IH]; intros pkt slot; [done|].
    cbn [stamped_packets length]. by rewrite IH. }
  intros k q Hq.
  destruct (stamped_packets_lookup ts _ _ _ _ Hq) as (Hs & Hrest).
  split; [lia|done].
Qed.

Lemma txcallback_failure (data : dwt_callback_data_t) (s : tag) :
  event data ≠ DWT_SIG_TX_DONE -> dw1000_tag_txcallback data s = timer_stop s.
Proof. intros He. unfold dw1000_tag_txcallback. by destruct (event data). Qed.

(** X8.  A transmit failure ends the burst where it stands.  If, after a
    start and fewer timer fires than there are broadcasts, the radio
    reports anything but a completed transmission, then however often the
    timer fires afterwards no further packet is sent: the slots of the
    broadcasts made hold their send times, the remaining slots stay zero,
    the subsequence index stays where it was, the state stays
    TSTATE_BROADCASTS and the trace ends with the calls of the last
    broadcast made. *)
Theorem transmit_failure_ends_the_burst
    (ts us : list Z) (data : dwt_callback_data_t) (s : tag) :
  1 <= NUM_RANGING_BROADCASTS <= 256 ->
  length (_ranging_broadcast_ss_send_times s) = Z.to_nat NUM_RANGING_BROADCASTS ->
  Z.of_nat (length ts) < NUM_RANGING_BROADCASTS ->
  event data ≠ DWT_SIG_TX_DONE ->
  ∃ s', run (StartRangingEvent
               :: (TimerFire <$> ts) ++ TxCallback data :: (TimerFire <$> us)) s
          = Some s' ∧
        _ranging_broadcast_ss_send_times s' =
          (scheduled_send_time <$> ts)
            ++ replicate (Z.to_nat NUM_RANGING_BROADCASTS - length ts) 0 ∧
        _ranging_broadcast_ss_num s' = Z.of_nat (length ts) ∧
        _tag_state s' = TSTATE_BROADCASTS ∧
        _ranging_broadcast_timer s' = None ∧
        trace s' = trace s ++ broadcast_run_calls (pp_tag_poll_pkt s) 0 ts.
Proof.
  intros HN Hlen Hts He.
  destruct (start_ready_for_broadcasts s Hlen)
    as (Hlen0 & Hts0 & Hn0 & Hp0 & Hst0 & Hpkt0 & Htr0).
  destruct (run_broadcasts_upto ts (dw1000_tag_start_ranging_event s)
              RANGING_BROADCASTS_PERIOD_US)
    as (s1 & Hrun & Hts1 & Hn1 & _ & _ & Hst1 & _ & _ & _ & _ & Htr1);
    [lia|done|rewrite Hn0; lia|rewrite Hn0; lia|done|].
  rewrite Hn0, Hts0 in Hts1. rewrite Hn0 in Hn1.
  rewrite Hn0, Hpkt0, Htr0 in Htr1.
  rewrite run_start_cons, run_app, Hrun. cbn [mbind option_bind].
  rewrite run_cons. cbn [step mbind option_bind].
  rewrite txcallback_failure by done.
  rewrite run_timer_fires_stopped by done.
  eexists. split; [reflexivity|].
  cbn [timer_stop set_timer _ranging_broadcast_ss_send_times
       _ranging_broadcast_ss_num _tag_state _ranging_broadcast_timer trace].
  rewrite Hts1, Hn1, Hst1, Hst0, Htr1.
  change (Z.to_nat 0) with 0%nat. cbn [take app Nat.add].
  rewrite drop_replicate, wrap8_small by lia.
  done.
Qed.

(** X13.  More than 256 broadcasts per event cannot be counted by the
    8-bit subsequence index: the index never equals
    NUM_RANGING_BROADCASTS - 1.  After a start, however often the timer
    fires, every fire sends one more packet, the timer is never stopped
    and no transmission is ever started with a response expected. *)
Theorem broadcasts_never_end_beyond_256 (ts : list Z) (s : tag) :
  256 < NUM_RANGING_BROADCASTS ->
  length (_ranging_broadcast_ss_send_times s) = Z.to_nat NUM_RANGING_BROADCASTS ->
  ∃ s', run (StartRangingEvent :: (TimerFire <$> ts)) s = Some s' ∧
        _ranging_broadcast_timer s' =
          Some (RANGING_BROADCASTS_PERIOD_US, task_ranging_broadcast_subsequence) ∧
        _tag_state s' = TSTATE_BROADCASTS ∧
        length (written_packets (trace s'))
          = (length (written_packets (trace s)) + length ts)%nat ∧
        (∀ delayed, Dwt_starttx delayed true ∈ trace s' ->
                    Dwt_starttx delayed true ∈ trace s).
Proof.
  intros HN Hlen.
  destruct (start_ready_for_broadcasts s Hlen)
    as (Hlen0 & _ & Hn0 & Hp0 & Hst0 & _ & Htr0).
  rewrite run_start_cons.
  rewrite <- Htr0, <- Hst0, <- Hp0.
  assert (0 <= _ranging_broadcast_ss_num (dw1000_tag_start_ranging_event s) < 256)
    as Hj by (rewrite Hn0; lia).
  clear Hn0 Hst0 Htr0 Hlen.
  revert Hlen0 Hp0 Hj. generalize (dw1000_tag_start_ranging_event s).
  induction ts as [|t ts IH]; intros q Hlen Hp Hj.
  - exists q. cbn [length]. rewrite Nat.add_0_r. by repeat split.
  - rewrite run_timer_fire_cons. unfold timer_fire. rewrite Hp.
    destruct (subsequence_task_in_range t q)
      as (q1 & Hq1 & Hts1 & Hn1 & Htm1 & Hst1 & _); [lia|].
    destruct (subsequence_task_calls t q q1 Hq1) as (_ & Htr1).
    rewrite Hq1. cbn [mbind option_bind].
    rewrite decide_False in Htm1 by lia.
    destruct (IH q1) as (s' & Hrun & Htm' & Hst' & Hpk' & Hrx').
    { by rewrite Hts1, length_insert. }
    { by rewrite Htm1. }
    { rewrite Hn1. apply wrap8_range. }
    exists s'. split; [done|].
    rewrite Htm', Hst', Hpk', Htm1, Hst1, Htr1.
    split; [done|]. split; [done|]. split.
    + rewrite written_packets_app, written_packets_broadcast_calls, length_app.
      cbn [length]. lia.
    + intros d Hin. apply Hrx' in Hin. rewrite Htr1 in Hin.
      apply elem_of_app in Hin as [Hin|Hin]; [done|].
      exfalso. unfold broadcast_calls in Hin.
      rewrite decide_False in Hin by lia. cbn [app] in Hin.
      repeat (apply elem_of_cons in Hin as [Hin|Hin]; [discriminate Hin|]).
      by apply elem_of_nil in Hin.
Qed.

(** ** Received frames and the broadcasts *)

Lemma calculator_calls_broadcast_calls slot t pkt :
  calculator_calls (broadcast_calls slot t pkt) = 0%nat.
Proof. unfold broadcast_calls. by case_decide. Qed.

Lemma same_broadcast_side_refl s : same_broadcast_side s s.
Proof. by repeat split. Qed.

Lemma rxcallback_same_broadcast_side rxd rx s1 s2 s1' :
  same_broadcast_side s1 s2 ->
  dw1000_tag_rxcallback rxd rx s1 = Some s1' ->
  same_broadcast_side s1' s2.
Proof.
  intros (Hst & Hn & Hw & Hts & Hpkt & Htm & Hss & Hwp & Hcc) Hrx.
  destruct (rxcallback_keeps_broadcast_state _ _ _ _ Hrx)
    as (Hn' & Hts' & Htm' & Hw' & Hst').
  destruct (rxcallback_calls _ _ _ _ Hrx) as (Hpkt' & tr & Htr' & Hcases).
  unfold same_broadcast_side.
  rewrite Hst', Hn', Hw', Hts', Hpkt', Htm', Htr'.
  rewrite stores_and_starts_app, written_packets_app, calculator_calls_app.
  assert (stores_and_starts tr = [] ∧ written_packets tr = []
          ∧ calculator_calls tr = 0%nat) as (-> & -> & ->)
    by (by destruct Hcases as [->|[->| ->]]).
  by rewrite !app_nil_r, Nat.add_0_r.
Qed.

Lemma listening_window_task_same_broadcast_side s1 s2 :
  same_broadcast_side s1 s2 ->
  same_broadcast_side (ranging_listening_window_task s1)
                      (ranging_listening_window_task s2).
Proof.
  intros (Hst & Hn & Hw & Hts & Hpkt & Htm & Hss & Hwp & Hcc).
  unfold ranging_listening_window_task. rewrite Hw.
  case_decide; unfold same_broadcast_side;
    cbn [calculate_ranges timer_stop set_timer set_tag_state set_window_num call
         _tag_state _ranging_broadcast_ss_num _ranging_listening_window_num
         _ranging_broadcast_ss_send_times pp_tag_poll_pkt
         _ranging_broadcast_timer trace];
    rewrite ?stores_and_starts_app, ?written_packets_app, ?calculator_calls_app,
      Hss, Hwp, Hcc;
    repeat split; congruence.
Qed.

Lemma step_same_broadcast_side i s1 s2 s1' :
  not_rx_callback i = true ->
  same_broadcast_side s1 s2 ->
  step i s1 = Some s1' ->
  ∃ s2', step i s2 = Some s2' ∧ same_broadcast_side s1' s2'.
Proof.
  intros Hi Hsame.
  pose proof Hsame as (Hst & Hn & Hw & Hts & Hpkt & Htm & Hss & Hwp & Hcc).
  destruct i as [|data|rxd rx|t]; cbn [step]; [| |done|].
  - intros [= <-]. eexists. split; [reflexivity|].
    unfold same_broadcast_side. cbn. by rewrite Hts.
  - intros [= <-]. eexists. split; [reflexivity|].
    unfold dw1000_tag_txcallback. rewrite Hst.
    destruct (event data);
      [destruct (_tag_state s2); done
      |unfold same_broadcast_side; cbn; by repeat split ..].
  - unfold timer_fire. rewrite <- Htm.
    destruct (_ranging_broadcast_timer s1) as [[p [|]]|] eqn:Hp.
    + intros Htask.
      destruct (decide (0 <= _ranging_broadcast_ss_num s1
                          < Z.of_nat (length (_ranging_broadcast_ss_send_times s1))))
        as [Hin|Hout]; [|by rewrite subsequence_task_outside_array in Htask].
      destruct (subsequence_task_in_range t s1 Hin)
        as (q1 & Hq1 & Hts1 & Hn1 & Htm1 & Hst1 & Hw1 & _ & _ & Hss1).
      rewrite Htask in Hq1. injection Hq1 as <-.
      destruct (subsequence_task_calls t s1 s1' Htask) as (Hpkt1 & Htr1).
      destruct (subsequence_task_in_range t s2)
        as (s2' & Hs2' & Hts2 & Hn2 & Htm2 & Hst2 & Hw2 & _ & _ & Hss2);
        [by rewrite <- Hn, <- Hts|].
      destruct (subsequence_task_calls t s2 s2' Hs2') as (Hpkt2 & Htr2).
      exists s2'. split; [done|].
      unfold same_broadcast_side.
      rewrite Hst1, Hst2, Hn1, Hn2, Hw1, Hw2, Hts1, Hts2, Htm1, Htm2, Hss1, Hss2.
      rewrite Htr1, Htr2, !written_packets_app, !written_packets_broadcast_calls.
      rewrite !calculator_calls_app, !calculator_calls_broadcast_calls.
      rewrite Hpkt1, Hpkt2, Hst, Hn, Hw, Hts, Hpkt, Hss, Hwp, Hcc, Hp, <- Htm.
      by repeat split.
    + intros [= <-]. eexists. split; [reflexivity|].
      by apply listening_window_task_same_broadcast_side.
    + intros [= <-]. by exists s2.
Qed.

Lemma run_same_broadcast_side (ins : list input) :
  ∀ s1 s2 s1',
    same_broadcast_side s1 s2 ->
    run ins s1 = Some s1' ->
    ∃ s2', run (List.filter not_rx_callback ins) s2 = Some s2' ∧
           same_broadcast_side s1' s2'.
Proof.
  induction ins as [|i ins IH]; intros s1 s2 s1' Hsame.
  - intros [= <-]. by exists s2.
  - rewrite run_cons. destruct (step i s1) as [q1|] eqn:H1; [|done].
    cbn [mbind option_bind List.filter]. intros Hrun.
    destruct (not_rx_callback i) eqn:Hi.
    + destruct (step_same_broadcast_side i s1 s2 q1 Hi Hsame H1)
        as (q2 & H2 & Hsame').
      destruct (IH q1 q2 s1' Hsame' Hrun) as (s2' & Hrun2 & Hsame'').
      exists s2'. split; [|done].
      rewrite run_cons, H2. done.
    + destruct i as [| |rxd rx|]; try discriminate Hi.
      apply (IH q1 s2 s1'); [|done].
      by eapply rxcallback_same_broadcast_side.
Qed.

(** X9.  What is received never touches the sending side.  Take any
    sequence of inputs that the handlers get through, and the same
    sequence with every receive callback left out: the second run gets
    through as well, and the two final states agree on the tag state, the
    subsequence index, the window index, the send-time array, the poll
    packet, the timer, and on the stores of send times, the starts of
    transmissions and the packets written, in order, and on the number of
    calls of the range calculator. *)
Theorem receptions_do_not_disturb_the_broadcasts (ins : list input) (s s1 : tag) :
  run ins s = Some s1 ->
  ∃ s2, run (List.filter not_rx_callback ins) s = Some s2 ∧
        _tag_state s1 = _tag_state s2 ∧
        _ranging_broadcast_ss_num s1 = _ranging_broadcast_ss_num s2 ∧
        _ranging_listening_window_num s1 = _ranging_listening_window_num s2 ∧
        _ranging_broadcast_ss_send_times s1 = _ranging_broadcast_ss_send_times s2 ∧
        pp_tag_poll_pkt s1 = pp_tag_poll_pkt s2 ∧
        _ranging_broadcast_timer s1 = _ranging_broadcast_timer s2 ∧
        stores_and_starts (trace s1) = stores_and_starts (trace s2) ∧
        written_packets (trace s1) = written_packets (trace s2) ∧
        calculator_calls (trace s1) = calculator_calls (trace s2).
Proof.
  intros Hrun.
  apply (run_same_broadcast_side ins s s s1 (same_broadcast_side_refl s) Hrun).
Qed.

(** ** The listening phase with responses coming in *)

Lemma window_settings_calls_no_calculator first n :
  calculator_calls (window_settings_calls first n) = 0%nat.
Proof.
  unfold window_settings_calls, calculator_calls.
  induction (seqZ first n) as [|w ws IH]; [done|]. exact IH.
Qed.

Lemma filter_listening_inputs (ins : list input) :
  Forall listening_input ins ->
  List.filter not_rx_callback ins = TimerFire <$> fire_times ins.
Proof.
  induction 1 as [|i ins Hi _ IH]; [done|].
  destruct i; try done; cbn [List.filter not_rx_callback fire_times fmap list_fmap];
    by rewrite ?IH.
Qed.

Lemma rx_inputs_of_listening_inputs (ins : list input) :
  Forall listening_input ins -> Forall good_anc_final (received_frames ins).
Proof.
  induction 1 as [|i ins Hi _ IH]; [constructor|].
  destruct i; try done. cbn [received_frames]. by constructor.
Qed.

Lemma rxcallback_same_responses rxd rx s1 s2 :
  good_anc_final (rxd, rx) ->
  same_responses s1 s2 ->
  responses_bounded s1 ->
  ∃ s1' s2', dw1000_tag_rxcallback rxd rx s1 = Some s1' ∧
             dw1000_tag_rxcallback rxd rx s2 = Some s2' ∧
             same_responses s1' s2' ∧
             responses_bounded s1' ∧
             _ranging_broadcast_timer s1' = _ranging_broadcast_timer s1.
Proof.
  intros [He Hm] [Hc Hr] [Hlen Hb]. cbn [fst snd] in He, Hm.
  destruct (decide (_anchor_response_count s1 >= MAX_NUM_ANCHOR_RESPONSES))
    as [Hfull|Hroom].
  - exists (rx_reads rxd s1), (rx_reads rxd s2).
    rewrite !rxcallback_full by (done || lia).
    repeat split; try done; cbn; lia.
  - eexists. eexists.
    rewrite !rxcallback_append by (done || lia || by rewrite <- Hr).
    split; [reflexivity|]. split; [reflexivity|].
    split; [split; cbn; by rewrite Hc, ?Hr|].
    split; [|done].
    split; cbn; [by rewrite length_insert|].
    pose proof (wrap8_range (_anchor_response_count s1 + 1)).
    pose proof (wrap8_succ_le (_anchor_response_count s1)). lia.
Qed.

Lemma run_listening_responses (ins : list input) :
  ∀ s1 s2,
    Forall listening_input ins ->
    (∀ p, _ranging_broadcast_timer s1
            ≠ Some (p, task_ranging_broadcast_subsequence)) ->
    same_responses s1 s2 ->
    responses_bounded s1 ->
    ∃ s1' s2', run ins s1 = Some s1' ∧
               run (rx_input <$> received_frames ins) s2 = Some s2' ∧
               same_responses s1' s2'.
Proof.
  induction ins as [|i ins IH]; intros s1 s2 Hins Htm Hsame Hb.
  - by exists s1, s2.
  - apply Forall_cons_1 in Hins as [Hi Hins].
    destruct i as [| |rxd rx|t]; try done.
    + destruct (rxcallback_same_responses rxd rx s1 s2 Hi Hsame Hb)
        as (q1 & q2 & H1 & H2 & Hsame' & Hb' & Htm').
      destruct (IH q1 q2 Hins) as (s1' & s2' & Hr1 & Hr2 & Hs');
        [by rewrite Htm'|done|done|].
      exists s1', s2'.
      cbn [received_frames]. rewrite run_rx_input_cons, run_cons.
      cbn [step fst snd]. rewrite H1, H2. done.
    + cbn [received_frames]. rewrite run_cons. cbn [step]. unfold timer_fire.
      destruct (_ranging_broadcast_timer s1) as [[p [|]]|] eqn:Hp.
      * by destruct (Htm p).
      * cbn [mbind option_bind].
        apply IH; [done| | |].
        -- intros p'. unfold ranging_listening_window_task.
           case_decide; cbn; [discriminate|]. rewrite Hp. discriminate.
        -- destruct Hsame as [Hc Hr]. unfold ranging_listening_window_task.
           case_decide; by split.
        -- destruct Hb as [Hl Hc]. unfold ranging_listening_window_task.
           case_decide; by split.
      * cbn [mbind option_bind]. apply IH; try done.
        intros p'. rewrite Hp. discriminate.
Qed.

(** X16.  The listening phase collects the responses whatever the
    interleaving.  Let the timer run the listening-window task with the
    window index and the response count at 0, and let
    NUM_RANGING_LISTENING_WINDOWS + 1 timer fires arrive interleaved in any
    way with good ANC_FINAL frames.  Then the run ends in
    TSTATE_CALCULATE_RANGE with the timer stopped and the range calculator
    called once, and the collection holds the first
    MAX_NUM_ANCHOR_RESPONSES frames in the order of their arrival, frames
    that arrive after the last fire included. *)
Theorem listening_collects_the_responses (ins : list input) (l : tag) (p : Z) :
  0 <= NUM_RANGING_LISTENING_WINDOWS <= 255 ->
  0 <= MAX_NUM_ANCHOR_RESPONSES <= 255 ->
  _ranging_broadcast_timer l = Some (p, task_ranging_listening_window) ->
  _ranging_listening_window_num l = 0 ->
  _anchor_response_count l = 0 ->
  length (_anchor_response_times l) = Z.to_nat MAX_NUM_ANCHOR_RESPONSES ->
  Forall listening_input ins ->
  Z.of_nat (length (fire_times ins)) = NUM_RANGING_LISTENING_WINDOWS + 1 ->
  ∃ s', run ins l = Some s' ∧
        _tag_state s' = TSTATE_CALCULATE_RANGE ∧
        _ranging_broadcast_timer s' = None ∧
        calculator_calls (trace s') = S (calculator_calls (trace l)) ∧
        _anchor_response_count s' =
          Z.min (Z.of_nat (length (received_frames ins)))
                MAX_NUM_ANCHOR_RESPONSES ∧
        _anchor_response_times s' =
          ((λ f, response_of f.2)
             <$> take (Z.to_nat MAX_NUM_ANCHOR_RESPONSES) (received_frames ins))
            ++ drop (length (received_frames ins)
                       `min` Z.to_nat MAX_NUM_ANCHOR_RESPONSES)
                    (_anchor_response_times l).
Proof.
  intros HW HM Hp Hw0 Hc0 Hlen Hins Hfires.
  destruct (run_listening_responses ins l l Hins)
    as (s' & q' & Hrun & Hrx & [Hc Hr]).
  { intros p'. rewrite Hp. discriminate. }
  { by split. }
  { split; [done|lia]. }
  destruct (run_anc_finals_from_empty (received_frames ins) l)
    as (q & Hq & Hcq & Hrq);
    [by apply rx_inputs_of_listening_inputs|done|done|done|].
  rewrite Hrx in Hq. injection Hq as <-.
  destruct (run_same_broadcast_side ins l l s' (same_broadcast_side_refl l) Hrun)
    as (f & Hf & Hst & _ & _ & _ & _ & Htm & _ & _ & Hcc).
  rewrite filter_listening_inputs in Hf by done.
  destruct (run_window_fires_complete l p (fire_times ins) HW Hp Hw0 Hfires)
    as (f' & Hf' & Hstf & Htmf & Htrf).
  rewrite Hf in Hf'. injection Hf' as <-.
  exists s'. split; [done|].
  rewrite Hst, Htm, Hcc, Hc, Hr, Htrf.
  rewrite !calculator_calls_app, window_settings_calls_no_calculator.
  repeat split; try done.
  cbn. lia.
Qed.

(** X15.  A response bound above 255 is not enforced.  With room for more
    than 255 records the 8-bit count wraps instead of reaching the bound:
    the frame received at count 255 is stored in record 255 and puts the
    count back to 0, and the frame after it replaces record 0. *)
Theorem response_count_wraps_beyond_255
    (rxd1 rxd2 : dwt_callback_data_t) (rx1 rx2 : rx_registers) (s : tag) :
  255 < MAX_NUM_ANCHOR_RESPONSES ->
  length (_anchor_response_times s) = Z.to_nat MAX_NUM_ANCHOR_RESPONSES ->
  _anchor_response_count s = 255 ->
  good_anc_final (rxd1, rx1) ->
  good_anc_final (rxd2, rx2) ->
  ∃ s1 s2,
    dw1000_tag_rxcallback rxd1 rx1 s = Some s1 ∧
    _anchor_response_count s1 = 0 ∧
    dw1000_tag_rxcallback rxd2 rx2 s1 = Some s2 ∧
    _anchor_response_count s2 = 1 ∧
    _anchor_response_times s2 !! 0%nat = Some (response_of rx2) ∧
    _anchor_response_times s2 !! 255%nat = Some (response_of rx1).
Proof.
  intros HM Hlen Hc [He1 Hm1] [He2 Hm2]. cbn [fst snd] in *.
  eexists. eexists.
  rewrite rxcallback_append by (done || lia).
  rewrite Hc. change (wrap8 (255 + 1)) with 0.
  change (Z.to_nat 255) with 255%nat.
  set (s1 := set_response_count 0 _).
  split; [reflexivity|]. split; [reflexivity|].
  assert (_anchor_response_count s1 = 0) as Hc1 by done.
  assert (_anchor_response_times s1 =
            <[255%nat := response_of rx1]> (_anchor_response_times s)) as Hr1
    by done.
  rewrite (rxcallback_append rxd2 rx2 s1);
    [|done|done|rewrite Hc1; lia|by rewrite Hr1, length_insert].
  split; [reflexivity|].
  cbn [set_response_count set_response_times _anchor_response_count
       _anchor_response_times].
  rewrite ?Hc1, ?Hr1. change (wrap8 (0 + 1)) with 1.
  change (Z.to_nat 0) with 0%nat.
  split; [reflexivity|]. split.
  - apply list_lookup_insert_eq. rewrite length_insert. lia.
  - rewrite list_lookup_insert_ne by lia.
    apply list_lookup_insert_eq. lia.
Qed.

End MoreProperties.

(** * The event as the handlers run it *)

Section EventAsRun.

Context {C : firmware_constants}.

(** ** Transmit callbacks between the broadcasts *)

Lemma timer_fire_keeps_off_transition t s s' :
  _tag_state s ≠ TSTATE_TRANSITION_TO_ANC_FINAL ->
  timer_fire t s = Some s' ->
  _tag_state s' ≠ TSTATE_TRANSITION_TO_ANC_FINAL.
Proof.
  intros Hs. unfold timer_fire.
  destruct (_ranging_broadcast_timer s) as [[p [|]]|].
  - intros Htask.
    destruct (decide (0 <= _ranging_broadcast_ss_num s
                        < Z.of_nat (length (_ranging_broadcast_ss_send_times s))))
      as [Hi|Hi]; [|by rewrite subsequence_task_outside_array in Htask].
    destruct (subsequence_task_in_range t s Hi) as (s2 & Hs2 & _ & _ & _ & Hst2 & _).
    rewrite Htask in Hs2. injection Hs2 as <-. by rewrite Hst2.
  - intros [= <-]. unfold ranging_listening_window_task.
    case_decide; [discriminate|exact Hs].
  - by intros [= <-].
Qed.

(** As long as nothing puts the machine in TSTATE_TRANSITION_TO_ANC_FINAL,
    a transmit-done callback after each timer fire changes nothing. *)
Lemma run_fires_with_tx_done (ts : list Z) :
  ∀ s : tag,
    _tag_state s ≠ TSTATE_TRANSITION_TO_ANC_FINAL ->
    run (flat_map (λ t, [TimerFire t; TxCallback tx_done]) ts) s =
      run (TimerFire <$> ts) s.
Proof.
  induction ts as [|t ts IH]; intros s Hs; [done|].
  cbn [flat_map app]. rewrite run_timer_fire_cons, run_cons.
  cbn [step].
  destruct (timer_fire t s) as [s1|] eqn:H1; [|done].
  cbn [mbind option_bind].
  pose proof (timer_fire_keeps_off_transition t s s1 Hs H1) as Hs1.
  rewrite run_cons. cbn [step mbind option_bind].
  rewrite txcallback_done_elsewhere by done.
  by apply IH.
Qed.

Lemma calculator_calls_broadcast_run_calls (ts : list Z) :
  ∀ pkt slot, calculator_calls (broadcast_run_calls pkt slot ts) = 0%nat.
Proof.
  induction ts as [|t ts IH]; intros pkt slot; [done|].
  cbn [broadcast_run_calls].
  by rewrite calculator_calls_app, calculator_calls_broadcast_calls, IH.
Qed.

(** C1, on the code: the event of three broadcasts stops in Broadcasting.
    Starting an event moves Idle to Broadcasting, and the three timer
    fires, each followed by its transmit-done callback, store and start
    the three broadcasts, the last one with a response expected.  But the
    transmit-done callback of the last broadcast does not move the machine
    to Listening: it moves on only from TSTATE_TRANSITION_TO_ANC_FINAL,
    which no handler assigns, so all three callbacks change nothing.  The
    machine is left in TSTATE_BROADCASTS with its timer stopped; no further
    timer fire does anything, the window timer is never started and the
    range calculator is not entered.  The event as C1 words it does not
    take place, whatever the clock readings and the times of the window
    fires. *)
Theorem full_event_stalls_in_broadcasting (s : tag) (a0 a1 a2 : Z) :
  NUM_RANGING_BROADCASTS = 3 ->
  _tag_state s = TSTATE_IDLE ->
  length (_ranging_broadcast_ss_send_times s) = 3%nat ->
  ∃ b l,
    step StartRangingEvent s = Some b ∧
    _tag_state b = TSTATE_BROADCASTS ∧
    run [TimerFire a0; TxCallback tx_done;
         TimerFire a1; TxCallback tx_done;
         TimerFire a2; TxCallback tx_done] b = Some l ∧
    stores_and_starts (trace l) =
      stores_and_starts (trace s) ++
        [Store_send_time 0 (scheduled_send_time a0); Dwt_starttx true false;
         Store_send_time 1 (scheduled_send_time a1); Dwt_starttx true false;
         Store_send_time 2 (scheduled_send_time a2); Dwt_starttx true true] ∧
    _tag_state l = TSTATE_BROADCASTS ∧
    _ranging_broadcast_timer l = None ∧
    _ranging_listening_window_num l = _ranging_listening_window_num s ∧
    _anchor_response_count l = _anchor_response_count s ∧
    calculator_calls (trace l) = calculator_calls (trace s) ∧
    (∀ ws : list Z, run (TimerFire <$> ws) l = Some l) ∧
    (∀ w0 w1 : Z, ¬ claimed_full_event s a0 a1 a2 w0 w1).
Proof.
  intros HN Hs Hlen.
  assert (length (_ranging_broadcast_ss_send_times (dw1000_tag_start_ranging_event s))
          = Z.to_nat NUM_RANGING_BROADCASTS) as Hlen0.
  { change (length (replicate (length (_ranging_broadcast_ss_send_times s)) 0)
            = Z.to_nat NUM_RANGING_BROADCASTS).
    rewrite length_replicate, Hlen, HN. reflexivity. }
  destruct (run_broadcasts_upto [a0; a1; a2] (dw1000_tag_start_ranging_event s)
              RANGING_BROADCASTS_PERIOD_US)
    as (l & Hrun & _ & _ & _ & Hstop & Hst & Hw & Hc & _ & _ & Htr).
  { lia. }
  { exact Hlen0. }
  { change (0 <= 0 < 256). lia. }
  { change (0 + 3 <= NUM_RANGING_BROADCASTS). lia. }
  { reflexivity. }
  destruct (run_broadcasts [a0; a1; a2] (dw1000_tag_start_ranging_event s))
    as (l' & Hrun' & _ & _ & _ & _ & _ & _ & Hmarks).
  { lia. }
  { exact Hlen0. }
  { change (0 <= 0). lia. }
  { change (0 + 3 = NUM_RANGING_BROADCASTS). lia. }
  { intros _. eexists. reflexivity. }
  rewrite Hrun in Hrun'. injection Hrun' as <-.
  assert (run [TimerFire a0; TxCallback tx_done;
               TimerFire a1; TxCallback tx_done;
               TimerFire a2; TxCallback tx_done]
            (dw1000_tag_start_ranging_event s) = Some l) as Hfull.
  { rewrite <- Hrun.
    apply (run_fires_with_tx_done [a0; a1; a2]). discriminate. }
  change (_tag_state (dw1000_tag_start_ranging_event s))
    with TSTATE_BROADCASTS in Hst.
  change (_ranging_listening_window_num (dw1000_tag_start_ranging_event s))
    with (_ranging_listening_window_num s) in Hw.
  change (_anchor_response_count (dw1000_tag_start_ranging_event s))
    with (_anchor_response_count s) in Hc.
  change (trace (dw1000_tag_start_ranging_event s)) with (trace s) in Htr, Hmarks.
  change (_ranging_broadcast_ss_num (dw1000_tag_start_ranging_event s))
    with 0 in Htr, Hmarks.
  exists (dw1000_tag_start_ranging_event s), l.
  split; [reflexivity|].
  split; [reflexivity|].
  split; [exact Hfull|].
  split.
  { rewrite Hmarks. cbn [broadcast_marks]. rewrite HN. reflexivity. }
  split; [exact Hst|].
  split.
  { apply Hstop; [discriminate|].
    change (0 + 3 = NUM_RANGING_BROADCASTS). lia. }
  split; [exact Hw|].
  split; [exact Hc|].
  split.
  { rewrite Htr, calculator_calls_app, calculator_calls_broadcast_run_calls. lia. }
  split.
  { intros ws. apply run_timer_fires_stopped. apply Hstop; [discriminate|].
    change (0 + 3 = NUM_RANGING_BROADCASTS). lia. }
  intros w0 w1 (b' & l' & c & Hb' & _ & Hl' & Hst' & _).
  cbn [step] in Hb'. injection Hb' as <-.
  rewrite Hfull in Hl'. injection Hl' as <-.
  rewrite Hst in Hst'. discriminate Hst'.
Qed.

(** ** Receive errors between the window fires *)


End EventAsRun.

(** * Concrete runs *)

Section SmallRuns.

#[local] Existing Instance small_constants.

(** The event of C1 run from boot, with three broadcasts and two windows:
    it ends in TSTATE_BROADCASTS with the timer stopped. *)
Lemma full_event_stalls_in_broadcasting_witness :
  ∃ l, run [StartRangingEvent;
            TimerFire 100; TxCallback tx_done;
            TimerFire 5000; TxCallback tx_done;
            TimerFire 10000; TxCallback tx_done] tag_boot = Some l ∧
       stores_and_starts (trace l) =
         [Store_send_time 0 337920; Dwt_starttx true false;
          Store_send_time 1 1592320; Dwt_starttx true false;
          Store_send_time 2 2872320; Dwt_starttx true true] ∧
       _tag_state l = TSTATE_BROADCASTS ∧
       _ranging_broadcast_timer l = None ∧
       calculator_calls (trace l) = 0%nat ∧
       run [TimerFire 20000; TimerFire 30000] l = Some l ∧
       ¬ claimed_full_event tag_boot 100 5000 10000 20000 30000.
Proof.
  destruct (full_event_stalls_in_broadcasting tag_boot 100 5000 10000)
    as (b & l & Hb & _ & Hrun & Hmarks & Hst & Htm & _ & _ & Hcalc & Hidle & Hnot);
    [reflexivity..|].
  exists l.
  split; [rewrite run_cons, Hb; exact Hrun|].
  split; [rewrite Hmarks; reflexivity|].
  split; [exact Hst|].
  split; [exact Htm|].
  split; [rewrite Hcalc; reflexivity|].
  split; [exact (Hidle [20000; 30000])|].
  apply Hnot.
Defined.


(** C2 fails on the code: a response that arrives after the broadcasts of
    one event is still counted, and still stored, after the next start. *)
Lemma start_keeps_responses_counterexample :
  ∃ s, run [StartRangingEvent;
            TimerFire 100; TimerFire 5000; TimerFire 10000;
            TxCallback tx_done;
            RxCallback rx_okay (anchor_frame 7)] tag_boot = Some s ∧
       _anchor_response_count (dw1000_tag_start_ranging_event s) = 1 ∧
       _anchor_response_times (dw1000_tag_start_ranging_event s) !! 0%nat =
         Some {| anchor_addr := [7; 0; 0; 0; 0; 0; 0; 0];
                 tag_poll_TOAs := [100; 200; 300];
                 anc_final_tx_timestamp := 1280000;
                 anc_final_rx_timestamp := 987654321 |} ∧
       ¬ event_data_cleared (dw1000_tag_start_ranging_event s).
Proof.
  eexists. split; [vm_compute; reflexivity|].
  split; [reflexivity|]. split; [reflexivity|].
  intros (_ & Hcount & _). discriminate Hcount.
Qed.

(** C3 fails on the code: a start in the middle of the broadcasts neither
    fails nor leaves the event alone.  After one broadcast the machine is
    in TSTATE_BROADCASTS with subsequence index 1 and a send time in slot
    0; a second start puts the index back to 0 and wipes the slot. *)
Lemma start_mid_event_counterexample :
  ∃ s, run [StartRangingEvent; TimerFire 100] tag_boot
         = Some s ∧
       _tag_state s = TSTATE_BROADCASTS ∧
       _ranging_broadcast_ss_num s = 1 ∧
       _ranging_broadcast_ss_send_times s = [337920; 0; 0] ∧
       step StartRangingEvent s ≠ None ∧
       step StartRangingEvent s ≠ Some s ∧
       _ranging_broadcast_ss_num (dw1000_tag_start_ranging_event s) = 0 ∧
       _ranging_broadcast_ss_send_times (dw1000_tag_start_ranging_event s)
         = [0; 0; 0].
Proof.
  eexists. split; [vm_compute; reflexivity|].
  do 3 (split; [reflexivity|]).
  split; [discriminate|].
  split; [|split; reflexivity].
  intros [=].
Qed.

(** C5 fails on the code when the clock wraps during the broadcasts: with
    a margin of 1220 ticks, readings 2^32-3220, 2^32-1220 and 780 give a
    zero entry in slot 1 and a first entry larger than the last. *)
Lemma send_times_wrap_counterexample :
  ∃ s, run
         (StartRangingEvent :: (TimerFire <$> [4294964076; 4294966076; 780]))
         tag_boot = Some s ∧
       _ranging_broadcast_ss_send_times s = [1099511115776; 0; 512000] ∧
       ¬ Forall (λ v, v ≠ 0) (_ranging_broadcast_ss_send_times s) ∧
       ¬ (∀ (i j : nat) (a b : Z),
            (i < j)%nat ->
            _ranging_broadcast_ss_send_times s !! i = Some a ->
            _ranging_broadcast_ss_send_times s !! j = Some b ->
            a < b).
Proof.
  eexists. split; [vm_compute; reflexivity|].
  split; [reflexivity|]. split.
  - intros H. apply Forall_cons_1 in H as [_ H].
    apply Forall_cons_1 in H as [H _]. by apply H.
  - intros H.
    pose proof (H 0%nat 2%nat 1099511115776 512000 ltac:(lia) eq_refl eq_refl).
    lia.
Qed.

Lemma response_count_never_exceeds_bound_witness :
  ∃ s', run [RxCallback rx_okay (anchor_frame 1);
             RxCallback rx_okay (anchor_frame 2);
             RxCallback rx_okay (anchor_frame 3)] tag_boot = Some s' ∧
        _anchor_response_count s' <= 2.
Proof.
  destruct (response_count_never_exceeds_bound
              [RxCallback rx_okay (anchor_frame 1);
               RxCallback rx_okay (anchor_frame 2);
               RxCallback rx_okay (anchor_frame 3)] tag_boot)
    as [(s' & Hrun & _ & Hc) _].
  - repeat constructor.
  - split; [reflexivity|]. vm_compute. split; discriminate.
  - exists s'. split; [exact Hrun|exact Hc].
Defined.

Lemma broadcast_send_times_nonzero_increasing_witness :
  ∃ s', run [StartRangingEvent; TimerFire 100; TimerFire 5000; TimerFire 10000]
          tag_boot = Some s' ∧
        _ranging_broadcast_ss_send_times s' = [337920; 1592320; 2872320].
Proof.
  destruct (broadcast_send_times_nonzero_increasing [100; 5000; 10000] tag_boot)
    as (s' & Hrun & Htimes & _).
  - vm_compute. split; discriminate.
  - reflexivity.
  - reflexivity.
  - repeat constructor; vm_compute; congruence.
  - intros [|[|[|i]]] a b Ha Hb; vm_compute in Ha, Hb; try discriminate;
      injection Ha as <-; injection Hb as <-; vm_compute; discriminate.
  - exists s'. split; [exact Hrun|]. rewrite Htimes. reflexivity.
Defined.

Lemma tx_failure_only_stops_timer_witness :
  let s := dw1000_tag_start_ranging_event tag_boot in
  let s' := dw1000_tag_txcallback {| event := DWT_SIG_OTHER 13; datalength := 0 |} s in
  _ranging_broadcast_timer s' = None ∧ _tag_state s' = TSTATE_BROADCASTS.
Proof.
  intros s s'.
  destruct (tx_failure_only_stops_timer
              {| event := DWT_SIG_OTHER 13; datalength := 0 |} s)
    as (_ & Htm & Hst & _).
  - discriminate.
  - split; [exact Htm|exact Hst].
Defined.

Lemma rx_callback_ignores_other_message_types_witness :
  let rx := {| rx_timestamp := 5;
               rx_frame := {| sourceAddr := [1; 2; 3; 4; 5; 6; 7; 8];
                              message_type := 0x55;
                              TOAs := [1; 2; 3];
                              dw_time_sent := 9 |} |} in
  ∃ s', dw1000_tag_rxcallback rx_okay rx tag_boot = Some s' ∧
        _anchor_response_count s' = 0 ∧
        _tag_state s' = TSTATE_IDLE.
Proof.
  intros rx.
  destruct (rx_callback_ignores_other_message_types rx_okay rx tag_boot)
    as (s' & Hrx & Hc & _ & _ & Hst & _).
  - reflexivity.
  - discriminate.
  - discriminate.
  - exists s'. auto.
Defined.

Lemma stored_times_are_32bit_values_shifted_by_8_witness :
  (∃ s', send_poll 100 tag_boot = Some s' ∧
         _ranging_broadcast_ss_send_times s' !! 0%nat = Some (Z.shiftl 1320 8)) ∧
  (∃ q' r, dw1000_tag_rxcallback rx_okay (anchor_frame 7) tag_boot = Some q' ∧
           _anchor_response_times q' !! 0%nat = Some r ∧
           anc_final_tx_timestamp r = Z.shiftl 5000 8).
Proof.
  destruct (stored_times_are_32bit_values_shifted_by_8
              100 tag_boot rx_okay (anchor_frame 7) tag_boot)
    as [(s' & v & Hs' & Hv & -> & _) (q' & r & Hq' & Hr & Htx & _)].
  - vm_compute. split; [discriminate|reflexivity].
  - reflexivity.
  - reflexivity.
  - reflexivity.
  - vm_compute. split; [discriminate|reflexivity].
  - vm_compute. split; [discriminate|reflexivity].
  - split; [exists s'|exists q', r]; auto.
Defined.

Lemma rx_callback_appends_in_every_state_witness :
  ∃ s', dw1000_tag_rxcallback rx_okay (anchor_frame 7)
          (set_tag_state TSTATE_IDLE tag_boot) = Some s' ∧
        _anchor_response_count s' = 1 ∧
        _tag_state s' = TSTATE_IDLE.
Proof.
  destruct (rx_callback_appends_in_every_state
              TSTATE_IDLE rx_okay (anchor_frame 7) tag_boot)
    as (s' & Hrx & _ & _ & _ & Hc & Hst).
  - reflexivity.
  - reflexivity.
  - reflexivity.
  - vm_compute. split; [discriminate|reflexivity].
  - exists s'. split; [exact Hrx|]. split; [|exact Hst].
    apply Hc. vm_compute. reflexivity.
Defined.

End SmallRuns.


(** * Concrete runs for the further properties *)

Section MoreSmallRuns.

#[local] Existing Instance small_constants.

Lemma handlers_never_leave_arrays_witness :
  ∃ s', run busy_inputs tag_boot = Some s' ∧
        length (_ranging_broadcast_ss_send_times s') = 3%nat ∧
        _anchor_response_count s' <= 2.
Proof.
  destruct (handlers_never_leave_arrays busy_inputs)
    as (s' & Hrun & Hlen & _ & Hc & _).
  - vm_compute. split; discriminate.
  - vm_compute. discriminate.
  - exists s'. split; [exact Hrun|]. split; [exact Hlen|apply Hc].
Defined.

Lemma listening_is_never_reached_witness :
  ∃ s', run busy_inputs tag_boot = Some s' ∧
        _tag_state s' ≠ TSTATE_LISTENING ∧
        calculator_calls (trace s') = 0%nat.
Proof.
  assert (∃ s', run busy_inputs tag_boot = Some s') as [s' Hrun]
    by (eexists; vm_compute; reflexivity).
  destruct (listening_is_never_reached busy_inputs s' Hrun)
    as (_ & Hl & _ & _ & _ & Hc).
  exists s'. auto.
Defined.

Lemma responses_are_kept_across_events_witness :
  ∃ s1 s2,
    run [StartRangingEvent; RxCallback rx_okay (anchor_frame 7)] tag_boot
      = Some s1 ∧
    run busy_inputs s1 = Some s2 ∧
    _anchor_response_count s1 <= _anchor_response_count s2.
Proof.
  assert (∃ s1, run [StartRangingEvent; RxCallback rx_okay (anchor_frame 7)]
                  tag_boot = Some s1) as [s1 H1]
    by (eexists; vm_compute; reflexivity).
  assert (∃ s2, run busy_inputs s1 = Some s2) as [s2 H2].
  { vm_compute in H1. injection H1 as <-. eexists. vm_compute. reflexivity. }
  destruct (responses_are_kept_across_events
              [StartRangingEvent; RxCallback rx_okay (anchor_frame 7)]
              busy_inputs s1 s2) as [[Hle _] _];
    [vm_compute; split; discriminate|exact H1|exact H2|].
  exists s1, s2. auto.
Defined.

Lemma responses_are_stored_in_arrival_order_witness :
  ∃ s', run (rx_input <$> [(rx_okay, anchor_frame 1);
                           (rx_okay, anchor_frame 2);
                           (rx_okay, anchor_frame 3)]) tag_boot = Some s' ∧
        _anchor_response_count s' = 2 ∧
        _anchor_response_times s' =
          [response_of (anchor_frame 1); response_of (anchor_frame 2)].
Proof.
  destruct (responses_are_stored_in_arrival_order
              [(rx_okay, anchor_frame 1);
               (rx_okay, anchor_frame 2);
               (rx_okay, anchor_frame 3)] tag_boot)
    as (s' & Hrun & Hc & Hr).
  - repeat constructor.
  - vm_compute. split; discriminate.
  - reflexivity.
  - reflexivity.
  - exists s'. split; [exact Hrun|]. split; [exact Hc|exact Hr].
Defined.

Lemma listening_lasts_one_fire_more_than_windows_witness :
  ∃ s', run (TimerFire <$> [0; 0; 0])
          (dw1000_tag_txcallback tx_done
             (set_tag_state TSTATE_TRANSITION_TO_ANC_FINAL tag_boot)) = Some s' ∧
        _tag_state s' = TSTATE_CALCULATE_RANGE ∧
        _ranging_broadcast_timer s' = None.
Proof.
  destruct (listening_lasts_one_fire_more_than_windows
              (dw1000_tag_txcallback tx_done
                 (set_tag_state TSTATE_TRANSITION_TO_ANC_FINAL tag_boot))
              10000 [0; 0; 0])
    as [_ Hend].
  - vm_compute. split; discriminate.
  - reflexivity.
  - reflexivity.
  - destruct Hend as (s' & Hrun & Hst & Htm & _); [reflexivity|].
    exists s'. auto.
Defined.

Lemma rx_error_applies_settings_of_the_next_window_witness :
  ∃ s1 s2,
    run (TimerFire <$> [0])
      (dw1000_tag_txcallback tx_done
         (set_tag_state TSTATE_TRANSITION_TO_ANC_FINAL tag_boot)) = Some s1 ∧
    trace s1 = [Dw1000_set_ranging_listening_window_settings 0] ∧
    dw1000_tag_rxcallback rx_sync_loss (anchor_frame 0) s1 = Some s2 ∧
    trace s2 = [Dw1000_set_ranging_listening_window_settings 0;
                Dw1000_set_ranging_listening_window_settings 1].
Proof.
  destruct (rx_error_applies_settings_of_the_next_window
              (dw1000_tag_txcallback tx_done
                 (set_tag_state TSTATE_TRANSITION_TO_ANC_FINAL tag_boot))
              10000 [0] rx_sync_loss (anchor_frame 0))
    as (s1 & s2 & Hrun & _ & _ & Hrx & Htr & _).
  - vm_compute. discriminate.
  - reflexivity.
  - reflexivity.
  - vm_compute. split; discriminate.
  - unfold receive_errors, rx_sync_loss. cbn [event].
    rewrite !elem_of_cons. auto.
  - exists s1, s2. split; [exact Hrun|].
    vm_compute in Hrun. injection Hrun as <-.
    split; [reflexivity|]. split; [exact Hrx|exact Htr].
Defined.

Lemma transmit_failure_ends_the_burst_witness :
  ∃ s', run (StartRangingEvent
               :: (TimerFire <$> [100]) ++ TxCallback tx_failed
               :: (TimerFire <$> [5000; 10000])) tag_boot = Some s' ∧
        _ranging_broadcast_ss_send_times s' = [337920; 0; 0] ∧
        _ranging_broadcast_timer s' = None.
Proof.
  destruct (transmit_failure_ends_the_burst [100] [5000; 10000] tx_failed tag_boot)
    as (s' & Hrun & Hts & _ & _ & Htm & _).
  - vm_compute. split; discriminate.
  - reflexivity.
  - vm_compute. reflexivity.
  - discriminate.
  - exists s'. split; [exact Hrun|]. split; [|exact Htm].
    rewrite Hts. reflexivity.
Defined.

Lemma receptions_do_not_disturb_the_broadcasts_witness :
  ∃ s1 s2,
    run busy_inputs tag_boot = Some s1 ∧
    run (List.filter not_rx_callback busy_inputs) tag_boot = Some s2 ∧
    _ranging_broadcast_ss_send_times s1 = _ranging_broadcast_ss_send_times s2 ∧
    _anchor_response_count s1 = 2 ∧
    _anchor_response_count s2 = 0.
Proof.
  assert (∃ s1, run busy_inputs tag_boot = Some s1) as [s1 H1]
    by (eexists; vm_compute; reflexivity).
  destruct (receptions_do_not_disturb_the_broadcasts busy_inputs tag_boot s1 H1)
    as (s2 & H2 & _ & _ & _ & Hts & _).
  exists s1, s2. split; [exact H1|]. split; [exact H2|]. split; [exact Hts|].
  vm_compute in H1, H2. injection H1 as <-. injection H2 as <-.
  split; reflexivity.
Defined.

Lemma broadcast_packets_are_numbered_in_order_witness :
  ∃ s', run (StartRangingEvent :: (TimerFire <$> [100; 5000; 10000])) tag_boot
          = Some s' ∧
        subsequence <$> written_packets (trace s') = [0; 1; 2] ∧
        seqNum <$> written_packets (trace s') = [1; 2; 3].
Proof.
  destruct (broadcast_packets_are_numbered_in_order [100; 5000; 10000] tag_boot)
    as (s' & pkts & Hrun & Hw & Hlen & Hk).
  - vm_compute. split; discriminate.
  - reflexivity.
  - vm_compute. discriminate.
  - exists s'. split; [exact Hrun|].
    rewrite Hw. cbn [tag_boot trace written_packets app].
    destruct pkts as [|q0 [|q1 [|q2 [|q3 rest]]]]; try discriminate Hlen.
    destruct (Hk 0%nat q0 eq_refl) as (Hs0 & Hn0 & _).
    destruct (Hk 1%nat q1 eq_refl) as (Hs1 & Hn1 & _).
    destruct (Hk 2%nat q2 eq_refl) as (Hs2 & Hn2 & _).
    cbn [fmap list_fmap app].
    rewrite Hs0, Hs1, Hs2, Hn0, Hn1, Hn2. split; reflexivity.
Defined.

Lemma poll_packets_keep_the_template_witness :
  ∃ s', run busy_inputs tag_boot = Some s' ∧
        reply_after_subsequence (pp_tag_poll_pkt s') = 2 ∧
        poll_message_type (pp_tag_poll_pkt s') = 0x80.
Proof.
  assert (∃ s', run busy_inputs tag_boot = Some s') as [s' Hrun]
    by (eexists; vm_compute; reflexivity).
  destruct (poll_packets_keep_the_template busy_inputs s' Hrun)
    as ((Hm & Hr & _) & _).
  exists s'. split; [exact Hrun|]. split; [exact Hr|exact Hm].
Defined.

Lemma send_times_keep_their_shape_witness :
  ∃ s', run busy_inputs tag_boot = Some s' ∧
        ∀ (i : nat) (v : Z),
          _ranging_broadcast_ss_send_times s' !! i = Some v -> v mod 512 = 0.
Proof.
  assert (∃ s', run busy_inputs tag_boot = Some s') as [s' Hrun]
    by (eexists; vm_compute; reflexivity).
  destruct (send_times_keep_their_shape busy_inputs s' Hrun) as (Hts & _).
  exists s'. split; [exact Hrun|]. intros i v Hv. apply (Hts i v Hv).
Defined.

Lemma nothing_is_sent_before_start_witness :
  ∃ s', run idle_inputs tag_boot = Some s' ∧
        _tag_state s' = TSTATE_IDLE ∧
        stores_and_starts (trace s') = [] ∧
        _anchor_response_count s' = 1.
Proof.
  assert (∃ s', run idle_inputs tag_boot = Some s') as [s' Hrun]
    by (eexists; vm_compute; reflexivity).
  destruct (nothing_is_sent_before_start idle_inputs s') as (Hst & _ & _ & Htr).
  - repeat constructor; discriminate.
  - exact Hrun.
  - exists s'. split; [exact Hrun|]. split; [exact Hst|]. split; [exact Htr|].
    vm_compute in Hrun. injection Hrun as <-. reflexivity.
Defined.

Lemma listening_collects_the_responses_witness :
  ∃ s', run [TimerFire 0;
             RxCallback rx_okay (anchor_frame 1);
             TimerFire 0;
             RxCallback rx_okay (anchor_frame 2);
             RxCallback rx_okay (anchor_frame 3);
             TimerFire 0]
          (dw1000_tag_txcallback tx_done
             (set_tag_state TSTATE_TRANSITION_TO_ANC_FINAL tag_boot)) = Some s' ∧
        _tag_state s' = TSTATE_CALCULATE_RANGE ∧
        calculator_calls (trace s') = 1%nat ∧
        _anchor_response_count s' = 2 ∧
        _anchor_response_times s' =
          [response_of (anchor_frame 1); response_of (anchor_frame 2)].
Proof.
  destruct (listening_collects_the_responses
              [TimerFire 0;
               RxCallback rx_okay (anchor_frame 1);
               TimerFire 0;
               RxCallback rx_okay (anchor_frame 2);
               RxCallback rx_okay (anchor_frame 3);
               TimerFire 0]
              (dw1000_tag_txcallback tx_done
                 (set_tag_state TSTATE_TRANSITION_TO_ANC_FINAL tag_boot))
              10000)
    as (s' & Hrun & Hst & _ & Hcc & Hc & Hr).
  - vm_compute. split; discriminate.
  - vm_compute. split; discriminate.
  - reflexivity.
  - reflexivity.
  - reflexivity.
  - reflexivity.
  - repeat constructor.
  - reflexivity.
  - exists s'. split; [exact Hrun|]. split; [exact Hst|].
    split; [exact Hcc|]. split; [exact Hc|exact Hr].
Defined.

End MoreSmallRuns.

Section WideRuns.

#[local] Existing Instance wide_constants.

Lemma listening_never_ends_beyond_255_windows_witness :
  ∃ s', run (TimerFire <$> [0; 0; 0])
          (dw1000_tag_txcallback tx_done
             (set_tag_state TSTATE_TRANSITION_TO_ANC_FINAL tag_boot)) = Some s' ∧
        _tag_state s' = TSTATE_LISTENING ∧
        _ranging_broadcast_timer s' = Some (10000, task_ranging_listening_window).
Proof.
  destruct (listening_never_ends_beyond_255_windows
              (dw1000_tag_txcallback tx_done
                 (set_tag_state TSTATE_TRANSITION_TO_ANC_FINAL tag_boot))
              10000 [0; 0; 0])
    as (s' & Hrun & Htm & Hst & _).
  - right. vm_compute. reflexivity.
  - reflexivity.
  - vm_compute. split; [discriminate|reflexivity].
  - exists s'. split; [exact Hrun|]. split; [exact Hst|exact Htm].
Defined.

Lemma broadcasts_never_end_beyond_256_witness :
  ∃ s', run (StartRangingEvent :: (TimerFire <$> [100; 5000; 10000])) tag_boot
          = Some s' ∧
        _ranging_broadcast_timer s' =
          Some (2000, task_ranging_broadcast_subsequence) ∧
        length (written_packets (trace s')) = 3%nat.
Proof.
  destruct (broadcasts_never_end_beyond_256 [100; 5000; 10000] tag_boot)
    as (s' & Hrun & Htm & _ & Hlen & _).
  - vm_compute. reflexivity.
  - reflexivity.
  - exists s'. split; [exact Hrun|]. split; [exact Htm|exact Hlen].
Defined.

Lemma response_count_wraps_beyond_255_witness :
  ∃ s1 s2,
    dw1000_tag_rxcallback rx_okay (anchor_frame 1)
      (set_response_count 255 tag_boot) = Some s1 ∧
    _anchor_response_count s1 = 0 ∧
    dw1000_tag_rxcallback rx_okay (anchor_frame 2) s1 = Some s2 ∧
    _anchor_response_times s2 !! 0%nat = Some (response_of (anchor_frame 2)).
Proof.
  destruct (response_count_wraps_beyond_255
              rx_okay rx_okay (anchor_frame 1) (anchor_frame 2)
              (set_response_count 255 tag_boot))
    as (s1 & s2 & H1 & Hc1 & H2 & _ & Hr0 & _).
  - vm_compute. reflexivity.
  - reflexivity.
  - reflexivity.
  - split; reflexivity.
  - split; reflexivity.
  - exists s1, s2. auto.
Defined.

End WideRuns.
